(** * S3 bucket-policy reconciliation: a shallow embedding of
    [src/functions/src/index.ts] and the properties of its policy merge.

    The Lambda reads the customer registry, lists the managed buckets and,
    for each of them, replaces the statement carrying the managed Sid in
    the bucket policy.  Policy documents reach the code as the result of
    [JSON.parse]; they are modelled as JSON values, the way the code has
    them at run time, so that a missing [Statement] or a [null] statement
    behaves as in JavaScript (a [TypeError]). *)

From Stdlib Require Import String Ascii List Bool Arith Lia.
Import ListNotations.
Open Scope string_scope.

Set Implicit Arguments.
Set Warnings "-register-all".

(** ** JavaScript values produced by [JSON.parse] *)

(** An object is the list of its own enumerable properties in enumeration
    order.  Numbers are never inspected by the program; they are carried as
    the text of their literal. *)
Inductive json : Type :=
| JNull
| JBool (b : bool)
| JNumber (literal : string)
| JString (s : string)
| JArray (items : list json)
| JObject (fields : list (string * json)).

(** ** Exceptions *)

Inductive js_error : Type :=
| TypeError (message : string)
| SyntaxError (message : string)
| Rejected (reason : json).

Inductive result (A : Type) : Type :=
| Ok (a : A)
| Throw (e : js_error).
Arguments Ok {A} a.
Arguments Throw {A} e.

Module Res.

Definition bind {A B} (r : result A) (k : A -> result B) : result B :=
  match r with
  | Ok a => k a
  | Throw e => Throw e
  end.

End Res.

Declare Scope res_scope.
Delimit Scope res_scope with res.
Notation "x <- r ;; k" := (Res.bind r (fun x => k))
  (at level 61, r at next level, right associativity) : res_scope.

(** ** Property access *)

Fixpoint assoc (k : string) (fields : list (string * json)) : option json :=
  match fields with
  | [] => None
  | (k', v) :: rest => if String.eqb k k' then Some v else assoc k rest
  end.

(** [v.k] for a key [k] that no prototype defines (the program reads
    [Statement] and [Sid] only): [undefined] ([None]) on everything but an
    object owning [k], and a [TypeError] on [null]. *)
Definition get_prop (v : json) (k : string) : result (option json) :=
  match v with
  | JNull => Throw (TypeError ("Cannot read properties of null (reading '" ++ k ++ "')"))
  | JObject fields => Ok (assoc k fields)
  | _ => Ok None
  end.

(** [{...o, k: v}]: the copy of [o] keeps its properties in order; [k] is
    overwritten where it stands, or added last. *)
Fixpoint set_field (k : string) (v : json) (fields : list (string * json))
  : list (string * json) :=
  match fields with
  | [] => [(k, v)]
  | (k', v') :: rest =>
      if String.eqb k k' then (k, v) :: rest
      else (k', v') :: set_field k v rest
  end.

(** Own enumerable properties copied by a spread.  The program spreads
    [currentPolicy] only after [currentPolicy.Statement.filter] has
    returned, which happens for objects alone (see [updateBucketPolicy_Ok_object]). *)
Definition spread (v : json) : list (string * json) :=
  match v with
  | JObject fields => fields
  | _ => []
  end.

(** ** The policy merger *)

Definition POLICY_SID : string := "DeploymentAccess".

(** [x !== POLICY_SID] where [x] is the result of a property read. *)
Definition strict_ne_POLICY_SID (x : option json) : bool :=
  match x with
  | Some (JString s) => negb (String.eqb s POLICY_SID)
  | _ => true
  end.

(** [Array.prototype.filter] with a callback that may throw. *)
Fixpoint filter_cb (cb : json -> result bool) (items : list json)
  : result (list json) :=
  match items with
  | [] => Ok []
  | x :: rest =>
      (keep <- cb x ;;
       kept <- filter_cb cb rest ;;
       Ok (if keep then x :: kept else kept))%res
  end.

(** [x.filter(cb)] where [x] was read from a JSON value: only arrays have a
    [filter] method. *)
Definition call_filter (x : option json) (cb : json -> result bool)
  : result (list json) :=
  match x with
  | None => Throw (TypeError "Cannot read properties of undefined (reading 'filter')")
  | Some JNull => Throw (TypeError "Cannot read properties of null (reading 'filter')")
  | Some (JArray items) => filter_cb cb items
  | Some _ => Throw (TypeError "currentPolicy.Statement.filter is not a function")
  end.

Definition Action_list : list string :=
  [ "s3:GetObject";
    "s3:GetObjectTagging";
    "s3:GetObjectAttributes";
    "s3:GetObjectVersion";
    "s3:GetObjectVersionTagging";
    "s3:GetObjectVersionAttributes";
    "s3:GetObjectVersionAcl";
    "s3:GetObjectAcl" ].

Definition account_root_arn (accountId : string) : string :=
  "arn:aws:iam::" ++ accountId ++ ":root".

Definition bucket_objects_arn (bucket : string) : string :=
  "arn:aws:s3:::" ++ bucket ++ "/*".

(** The constant [updatedStatement] of [updateBucketPolicy]. *)
Definition updatedStatement (bucket : string) (accountIds : list string) : json :=
  JObject
    [ ("Sid", JString POLICY_SID);
      ("Effect", JString "Allow");
      ("Principal",
        JObject [ ("AWS", JArray (map (fun accountId => JString (account_root_arn accountId)) accountIds)) ]);
      ("Action", JArray (map JString Action_list));
      ("Resource", JString (bucket_objects_arn bucket)) ].

(** The callback of the filter: [(statement) => statement.Sid !== POLICY_SID]. *)
Definition keep_other (statement : json) : result bool :=
  (Sid <- get_prop statement "Sid" ;;
   Ok (strict_ne_POLICY_SID Sid))%res.

Definition updateBucketPolicy
  (bucket : string) (currentPolicy : json) (accountIds : list string)
  : result json :=
  (Statement <- get_prop currentPolicy "Statement" ;;
   otherStatements <- call_filter Statement keep_other ;;
   let statements := (otherStatements ++ [updatedStatement bucket accountIds])%list in
   Ok (JObject (set_field "Statement" (JArray statements) (spread currentPolicy))))%res.

(** ** The account-set resolver: data *)

Module Account.
Record t : Type := mk {
  ID : string;
  Name : string;
  Enabled : bool;
  RoleName : string;
  Environment : list string;
  AdminOnly : option bool;
  ExternalID : option string
}.
End Account.

Module Customer.
Record t : Type := mk {
  ID : string;
  Name : string;
  Created : string;
  Active : bool;
  Accounts : list Account.t;
  Logo : option string
}.
End Customer.

(** [new Set(xs)] followed by [Array.from]: a JavaScript [Set] keeps its
    members in insertion order and ignores the insertion of a member it
    already has. *)
Definition Set_has (s : list string) (x : string) : bool :=
  existsb (String.eqb x) s.

Definition Set_add (s : list string) (x : string) : list string :=
  if Set_has s x then s else (s ++ [x])%list.

Definition Array_from_Set (xs : list string) : list string :=
  fold_left Set_add xs [].

(** [x ?? d] *)
Definition nullish {A} (x : option A) (d : A) : A :=
  match x with
  | Some a => a
  | None => d
  end.

(** The pure part of [getAccountIdsFromDynamoDB], from the [Items] of the
    scan's response on. *)
Definition accountIds_of_Items (Items : option (list Customer.t)) : list string :=
  let records := nullish Items [] in
  Array_from_Set
    (flat_map (fun item => map (fun account => Account.ID account) (Customer.Accounts item))
       records).

(** ** Bucket discovery: data *)

Definition BUCKET_PREFIX : string := "some-prefix-lambdabundles-".

(** [s.startsWith(p)] *)
Definition startsWith (s p : string) : bool := String.prefix p s.

(** [s.slice(n)] for [n >= 0]. *)
Fixpoint slice (n : nat) (s : string) : string :=
  match n, s with
  | O, _ => s
  | S n', String _ s' => slice n' s'
  | S _, EmptyString => EmptyString
  end.

Record Bucket : Type := { Bucket_Name : option string }.

Definition lambdaBundleBuckets_of (Buckets : option (list Bucket)) : list string :=
  let buckets := nullish Buckets [] in
  filter (fun bucket => startsWith bucket BUCKET_PREFIX)
    (map (fun bucket => nullish (Bucket_Name bucket) "") buckets).

(** [const region = bucket.slice(25)] in the loop of [handler]. *)
Definition region_of_bucket (bucket : string) : string := slice 25 bucket.

(** ** The error test of [getCurrentBucketPolicy] *)

(** A thrown value is either an error object made by the runtime, which
    has no [Code] property, or whatever the SDK rejected with. *)
Definition typeof_is_object (error : js_error) : bool :=
  match error with
  | Rejected (JNull | JArray _ | JObject _) => true
  | Rejected _ => false
  | TypeError _ | SyntaxError _ => true
  end.

Definition is_not_null (error : js_error) : bool :=
  match error with
  | Rejected JNull => false
  | _ => true
  end.

Definition Code_of (error : js_error) : option json :=
  match error with
  | Rejected (JObject fields) => assoc "Code" fields
  | _ => None
  end.

Definition Code_in (error : js_error) : bool :=
  match Code_of error with
  | Some _ => true
  | None => false
  end.

Definition Code_is (error : js_error) (code : string) : bool :=
  match Code_of error with
  | Some (JString c) => String.eqb c code
  | _ => false
  end.

Definition is_NoSuchBucketPolicy (error : js_error) : bool :=
  typeof_is_object error && is_not_null error && Code_in error
  && Code_is error "NoSuchBucketPolicy".

Definition default_policy : json :=
  JObject [ ("Statement", JArray []); ("Version", JString "2012-10-17") ].

(** [x || d] on an optional string: [undefined] and the empty string are
    falsy. *)
Definition or_else (x : option string) (d : string) : string :=
  match x with
  | None | Some EmptyString => d
  | Some s => s
  end.

(** ** The external services *)

Record ScanCommandInput : Type := {
  TableName : string;
  ExpressionAttributeNames : list (string * string);
  ProjectionExpression : string
}.

Record ScanCommandOutput : Type := { Items : option (list Customer.t) }.
Record ListBucketsCommandOutput : Type := { Buckets : option (list Bucket) }.
Record GetBucketPolicyCommandOutput : Type := { Policy : option string }.

(** An [S3Client] is known by the configuration it was built from. *)
Record S3Client : Type := { region : option string }.

(** What the run does to the outside, in the order it does it. *)
Inductive event : Type :=
| EScan (input : ScanCommandInput)
| EListBuckets (client : S3Client)
| EGetBucketPolicy (client : S3Client) (Bucket : string)
| EPutBucketPolicy (client : S3Client) (Bucket : string) (Policy : string)
| EConsoleLog (message : string)
| EConsoleError (message : string) (error : js_error).

(** The registry, the storage control plane and the two [JSON] functions
    of the runtime.  [W] is the state of the outside world: a call answers
    (or rejects) and moves the world on.  [JSON_parse] answers [None] where
    [JSON.parse] throws its [SyntaxError]. *)
Class Services (W : Type) : Type := {
  dynamodb_send_Scan : ScanCommandInput -> W -> result ScanCommandOutput * W;
  s3_send_ListBuckets : S3Client -> W -> result ListBucketsCommandOutput * W;
  s3_send_GetBucketPolicy :
    S3Client -> string -> W -> result GetBucketPolicyCommandOutput * W;
  s3_send_PutBucketPolicy : S3Client -> string -> string -> W -> result unit * W;
  JSON_parse : string -> option json;
  JSON_stringify : json -> string
}.

(** ** Computations that call the services *)

Module Run.

Definition t (W A : Type) : Type := W -> result A * W * list event.

Definition ret {W A} (a : A) : t W A := fun w => (Ok a, w, []).

Definition throw {W A} (e : js_error) : t W A := fun w => (Throw e, w, []).

Definition lift {W A} (r : result A) : t W A := fun w => (r, w, []).

Definition bind {W A B} (m : t W A) (k : A -> t W B) : t W B :=
  fun w =>
    match m w with
    | (Ok a, w1, tr1) =>
        let '(r, w2, tr2) := k a w1 in (r, w2, (tr1 ++ tr2)%list)
    | (Throw e, w1, tr1) => (Throw e, w1, tr1)
    end.

(** [try { m } catch (error) { h error }] *)
Definition try_catch {W A} (m : t W A) (h : js_error -> t W A) : t W A :=
  fun w =>
    match m w with
    | (Ok a, w1, tr1) => (Ok a, w1, tr1)
    | (Throw e, w1, tr1) =>
        let '(r, w2, tr2) := h e w1 in (r, w2, (tr1 ++ tr2)%list)
    end.

(** A call to a service: the event, then the answer. *)
Definition call {W A} (ev : event) (f : W -> result A * W) : t W A :=
  fun w => let '(r, w1) := f w in (r, w1, [ev]).

(** An output on the console. *)
Definition emit {W} (ev : event) : t W unit := fun w => (Ok tt, w, [ev]).

End Run.

Declare Scope run_scope.
Delimit Scope run_scope with run.
Notation "x <- m ;; k" := (Run.bind m (fun x => k))
  (at level 61, m at next level, right associativity) : run_scope.
Notation "m ;;; k" := (Run.bind m (fun _ => k))
  (at level 61, right associativity) : run_scope.

(** [for (const x of xs) { body x }] *)
Fixpoint for_of {W A} (xs : list A) (body : A -> Run.t W unit) : Run.t W unit :=
  match xs with
  | [] => Run.ret tt
  | x :: rest => (body x ;;; for_of rest body)%run
  end.

(** ** The program *)

Section Program.

Context {W : Type} {services : Services W}.

Definition DYNAMODB_TABLE_NAME : string := "table-name".

(** The global [s3 = new S3Client({})]. *)
Definition s3 : S3Client := {| region := None |}.

Definition scan_input : ScanCommandInput :=
  {| TableName := DYNAMODB_TABLE_NAME;
     ExpressionAttributeNames := [("#A", "Accounts")];
     ProjectionExpression := "#A" |}.

Definition getAccountIdsFromDynamoDB : Run.t W (list string) :=
  (out <- Run.call (EScan scan_input) (dynamodb_send_Scan scan_input) ;;
   let accountIds := accountIds_of_Items (Items out) in
   Run.ret accountIds)%run.

Definition parse (text : string) : result json :=
  match JSON_parse text with
  | Some v => Ok v
  | None => Throw (SyntaxError ("Unexpected token in JSON: " ++ text))
  end.

Definition getCurrentBucketPolicy (client : S3Client) (bucket : string)
  : Run.t W json :=
  Run.try_catch
    (out <- Run.call (EGetBucketPolicy client bucket)
              (s3_send_GetBucketPolicy client bucket) ;;
     currentPolicy <- Run.lift (parse (or_else (Policy out) "{}")) ;;
     Run.ret currentPolicy)%run
    (fun error =>
       if is_NoSuchBucketPolicy error
       then Run.ret default_policy
       else Run.throw error).

Definition listLambdaBundleBuckets : Run.t W (list string) :=
  (response <- Run.call (EListBuckets s3) (s3_send_ListBuckets s3) ;;
   Run.ret (lambdaBundleBuckets_of (Buckets response)))%run.

(** The body of the loop of [handler]. *)
Definition handler_bucket (accountIds : list string) (bucket : string)
  : Run.t W unit :=
  (let region := region_of_bucket bucket in
   let client := {| region := Some region |} in
   currentPolicy <- getCurrentBucketPolicy client bucket ;;
   updatedPolicy <- Run.lift (updateBucketPolicy bucket currentPolicy accountIds) ;;
   let policy := JSON_stringify updatedPolicy in
   Run.call (EPutBucketPolicy client bucket policy)
     (s3_send_PutBucketPolicy client bucket policy))%run.

Definition handler : Run.t W unit :=
  Run.try_catch
    (accountIds <- getAccountIdsFromDynamoDB ;;
     buckets <- listLambdaBundleBuckets ;;
     for_of buckets (handler_bucket accountIds) ;;;
     Run.emit (EConsoleLog "S3 bucket policy updated successfully!"))%run
    (fun error =>
       Run.emit (EConsoleError "Error processing DynamoDB event:" error) ;;;
       Run.throw error)%run.

End Program.

(** ** Vocabulary of the properties *)

(** The statement list of a document, when it has one. *)
Definition policy_statements (p : json) : option (list json) :=
  match p with
  | JObject fields =>
      match assoc "Statement" fields with
      | Some (JArray stmts) => Some stmts
      | _ => None
      end
  | _ => None
  end.

Definition is_null (v : json) : bool :=
  match v with
  | JNull => true
  | _ => false
  end.

(** What the merger needs of its input: an object whose [Statement] is an
    array without [null].  Every value of the interface [S3BucketPolicy]
    is one. *)
Definition is_policy_document (p : json) : bool :=
  match policy_statements p with
  | Some stmts => forallb (fun s => negb (is_null s)) stmts
  | None => false
  end.

(** The statement carries the managed Sid. *)
Definition is_managed (statement : json) : bool :=
  match statement with
  | JObject fields =>
      match assoc "Sid" fields with
      | Some (JString sid) => String.eqb sid POLICY_SID
      | _ => false
      end
  | _ => false
  end.

(** Any other Sid, or none. *)
Definition is_foreign (statement : json) : bool := negb (is_managed statement).

Definition is_scan (ev : event) : bool :=
  match ev with
  | EScan _ => true
  | _ => false
  end.

(** The account identifier inside an account-root reference. *)
Definition account_of_arn (arn : string) : string :=
  substring 13 (String.length arn - 18) arn.

Definition string_of_json (v : json) : option string :=
  match v with
  | JString s => Some s
  | _ => None
  end.

(** Two-level property read, [v.k1.k2], on a value known to be an object. *)
Definition field (k : string) (v : json) : option json :=
  match v with
  | JObject fields => assoc k fields
  | _ => None
  end.

(** ** Sample documents *)

Definition foreign_stmt : json :=
  JObject [ ("Sid", JString "Other"); ("Effect", JString "Deny");
            ("Principal", JString "*"); ("Action", JString "s3:DeleteObject");
            ("Resource", JString "arn:aws:s3:::some-prefix-lambdabundles-eu-west-2/*") ].

Definition unnamed_stmt : json :=
  JObject [ ("Effect", JString "Allow");
            ("Principal", JObject [("Service", JString "cloudtrail.amazonaws.com")]);
            ("Action", JString "s3:PutObject");
            ("Resource", JString "arn:aws:s3:::some-prefix-lambdabundles-eu-west-2/logs/*") ].

Definition sample_bucket : string := "some-prefix-lambdabundles-eu-west-2".

Definition sample_accounts : list string := ["111111111111"; "222222222222"].

(** A policy with two stale managed statements among two foreign ones, an
    [Id] and a field the interface does not know. *)
Definition sample_policy : json :=
  JObject [ ("Version", JString "2012-10-17");
            ("Id", JString "bundles");
            ("Statement",
              JArray [ updatedStatement sample_bucket ["333333333333"];
                       foreign_stmt;
                       updatedStatement sample_bucket [];
                       unnamed_stmt ]);
            ("Note", JNumber "7") ].

(** ** A mock of the services *)

Definition dquote : string := String (ascii_of_nat 34) EmptyString.

(** Serialiser of the mock runtime (no escape sequences). *)
Fixpoint mock_stringify (v : json) : string :=
  match v with
  | JNull => "null"
  | JBool true => "true"
  | JBool false => "false"
  | JNumber literal => literal
  | JString s => dquote ++ s ++ dquote
  | JArray items =>
      "[" ++ slice 1 ((fix go (l : list json) : string :=
                         match l with
                         | [] => ""
                         | x :: rest => "," ++ mock_stringify x ++ go rest
                         end) items) ++ "]"
  | JObject fields =>
      "{" ++ slice 1 ((fix go (l : list (string * json)) : string :=
                         match l with
                         | [] => ""
                         | (k, x) :: rest =>
                             "," ++ dquote ++ k ++ dquote ++ ":" ++ mock_stringify x ++ go rest
                         end) fields) ++ "}"
  end.

(** Parser of the mock runtime: it knows the empty object only. *)
Definition mock_parse (text : string) : option json :=
  if String.eqb text "{}" then Some (JObject []) else None.

Fixpoint lookup_policy (bucket : string) (store : list (string * string))
  : option string :=
  match store with
  | [] => None
  | (b, text) :: rest => if String.eqb bucket b then Some text else lookup_policy bucket rest
  end.

Definition NoSuchBucketPolicy_error : js_error :=
  Rejected (JObject [ ("name", JString "NoSuchBucketPolicy");
                      ("Code", JString "NoSuchBucketPolicy");
                      ("message", JString "The bucket policy does not exist") ]).

Definition AccessDenied_error : js_error :=
  Rejected (JObject [ ("name", JString "AccessDenied");
                      ("Code", JString "AccessDenied") ]).

(** The world of the mock is the store of bucket policies; the registry
    answers [registry] and the account has the buckets [names]. *)
Definition mock_services (registry : result ScanCommandOutput) (names : list string)
  : Services (list (string * string)) :=
  {| dynamodb_send_Scan := fun _ store => (registry, store);
     s3_send_ListBuckets := fun _ store =>
       (Ok {| Buckets := Some (map (fun n => {| Bucket_Name := Some n |}) names) |}, store);
     s3_send_GetBucketPolicy := fun _ bucket store =>
       match lookup_policy bucket store with
       | Some text => (Ok {| Policy := Some text |}, store)
       | None => (Throw NoSuchBucketPolicy_error, store)
       end;
     s3_send_PutBucketPolicy := fun _ bucket text store => (Ok tt, (bucket, text) :: store);
     JSON_parse := mock_parse;
     JSON_stringify := mock_stringify |}.

Definition account (id : string) : Account.t :=
  Account.mk id "account" true "role" ["prod"] None None.

Definition customer (id : string) (accounts : list Account.t) : Customer.t :=
  Customer.mk id "customer" "2023-01-01" true accounts None.

Definition sample_registry : list Customer.t :=
  [ customer "a" [account "111111111111"];
    customer "b" [account "222222222222"; account "111111111111"] ].

(** ** Vocabulary of the runs *)

(** The client that [handler] builds for a bucket. *)
Definition client_of (bucket : string) : S3Client :=
  {| region := Some (region_of_bucket bucket) |}.

(** The calls of a turn of the loop that reaches its write: the bucket and
    the policy text written. *)
Definition turn_events (entry : string * string) : list event :=
  [ EGetBucketPolicy (client_of (fst entry)) (fst entry);
    EPutBucketPolicy (client_of (fst entry)) (fst entry) (snd entry) ].

(** What [handler] prints for an outcome. *)
Definition console_of (r : result unit) : event :=
  match r with
  | Ok _ => EConsoleLog "S3 bucket policy updated successfully!"
  | Throw e => EConsoleError "Error processing DynamoDB event:" e
  end.

Definition is_console (ev : event) : bool :=
  match ev with
  | EConsoleLog _ | EConsoleError _ _ => true
  | _ => false
  end.

(** A call on a bucket goes to a managed bucket, through its own client. *)
Definition on_managed_bucket (ev : event) : Prop :=
  match ev with
  | EGetBucketPolicy client bucket | EPutBucketPolicy client bucket _ =>
      client = client_of bucket /\ startsWith bucket BUCKET_PREFIX = true
  | _ => True
  end.

(** The identifiers of a registry, record by record. *)
Definition ids_by_record (items : list Customer.t) : list (list string) :=
  map (fun item => map (fun account => Account.ID account) (Customer.Accounts item)) items.

(** A second mock: the listing and the parser are given. *)
Definition mock_services_with
    (registry : result ScanCommandOutput)
    (listing : result ListBucketsCommandOutput)
    (parser : string -> option json)
  : Services (list (string * string)) :=
  {| dynamodb_send_Scan := fun _ store => (registry, store);
     s3_send_ListBuckets := fun _ store => (listing, store);
     s3_send_GetBucketPolicy := fun _ bucket store =>
       match lookup_policy bucket store with
       | Some text => (Ok {| Policy := Some text |}, store)
       | None => (Throw NoSuchBucketPolicy_error, store)
       end;
     s3_send_PutBucketPolicy := fun _ bucket text store => (Ok tt, (bucket, text) :: store);
     JSON_parse := parser;
     JSON_stringify := mock_stringify |}.

(** A parser that knows the empty object and the text of one document. *)
Definition mock_parse_of (doc : json) (text : string) : option json :=
  if String.eqb text (mock_stringify doc) then Some doc else mock_parse text.

(** The sample policy once merged for the sample accounts. *)
Definition sample_merged : json :=
  JObject [ ("Version", JString "2012-10-17");
            ("Id", JString "bundles");
            ("Statement",
              JArray [ foreign_stmt; unnamed_stmt;
                       updatedStatement sample_bucket sample_accounts ]);
            ("Note", JNumber "7") ].

(** The sample registry with every flag turned off. *)
Definition sample_registry_disabled : list Customer.t :=
  [ Customer.mk "a" "customer" "2023-01-01" false
      [Account.mk "111111111111" "account" false "role" [] (Some true) None] None;
    Customer.mk "b" "customer" "2023-01-01" false
      [Account.mk "222222222222" "account" false "role" [] None None;
       Account.mk "111111111111" "account" false "role" [] None None] None ].

(** A third mock: get-policy is refused on the buckets [no_get] and
    put-policy on the buckets [no_put]. *)
Definition mock_services_denying
    (registry : result ScanCommandOutput) (names no_get no_put : list string)
  : Services (list (string * string)) :=
  {| dynamodb_send_Scan := fun _ store => (registry, store);
     s3_send_ListBuckets := fun _ store =>
       (Ok {| Buckets := Some (map (fun n => {| Bucket_Name := Some n |}) names) |}, store);
     s3_send_GetBucketPolicy := fun _ bucket store =>
       if existsb (String.eqb bucket) no_get then (Throw AccessDenied_error, store)
       else match lookup_policy bucket store with
            | Some text => (Ok {| Policy := Some text |}, store)
            | None => (Throw NoSuchBucketPolicy_error, store)
            end;
     s3_send_PutBucketPolicy := fun _ bucket text store =>
       if existsb (String.eqb bucket) no_put then (Throw AccessDenied_error, store)
       else (Ok tt, (bucket, text) :: store);
     JSON_parse := mock_parse;
     JSON_stringify := mock_stringify |}.

Definition bucket_us : string := "some-prefix-lambdabundles-us-east-1".

Definition bucket_ap : string := "some-prefix-lambdabundles-ap-south-1".

(** What the merge makes of the default document. *)
Definition merged_default (bucket : string) (accountIds : list string) : json :=
  JObject [ ("Statement", JArray [updatedStatement bucket accountIds]);
            ("Version", JString "2012-10-17") ].

(** ** The merger: foreign statements, the managed statement, the frame *)

Section Merge.

Variables (bucket : string) (accountIds : list string).

Lemma keep_other_not_null statement :
  is_null statement = false -> keep_other statement = Ok (is_foreign statement).
Proof.
  destruct statement as [| b | n | s | items | fields]; try discriminate;
    intros _; cbn; try reflexivity.
  unfold is_foreign, is_managed.
  destruct (assoc "Sid" fields) as [[| b | n | s | items | fields']|]; reflexivity.
Qed.

Lemma filter_cb_not_null stmts :
  forallb (fun s => negb (is_null s)) stmts = true ->
  filter_cb keep_other stmts = Ok (filter is_foreign stmts).
Proof.
  induction stmts as [| s rest IH]; intros H; [reflexivity|].
  cbn [forallb] in H. apply andb_prop in H as [Hs Hrest].
  apply negb_true_iff in Hs.
  cbn [filter_cb filter]. rewrite (keep_other_not_null _ Hs). cbn [Res.bind].
  rewrite (IH Hrest). cbn [Res.bind].
  destruct (is_foreign s); reflexivity.
Qed.

Lemma filter_cb_null stmts :
  forallb (fun s => negb (is_null s)) stmts = false ->
  exists e, filter_cb keep_other stmts = Throw e.
Proof.
  induction stmts as [| s rest IH]; intros H; [discriminate|].
  cbn [forallb] in H. cbn [filter_cb].
  destruct (is_null s) eqn:Hs.
  - destruct s; try discriminate. cbn. eauto.
  - rewrite (keep_other_not_null _ Hs). cbn [Res.bind].
    cbn in H. destruct (IH H) as [e He]. rewrite He. cbn. eauto.
Qed.

Lemma assoc_set_field_same k v fields :
  assoc k (set_field k v fields) = Some v.
Proof.
  induction fields as [| [k' v'] rest IH]; cbn.
  - now rewrite String.eqb_refl.
  - destruct (String.eqb k k') eqn:E; cbn.
    + now rewrite String.eqb_refl.
    + now rewrite E.
Qed.

Lemma assoc_set_field_other k k' v fields :
  k' <> k -> assoc k' (set_field k v fields) = assoc k' fields.
Proof.
  intros Hne. induction fields as [| [k0 v0] rest IH]; cbn.
  - destruct (String.eqb k' k) eqn:E; [|reflexivity].
    apply String.eqb_eq in E. contradiction.
  - destruct (String.eqb k k0) eqn:E; cbn.
    + apply String.eqb_eq in E. subst k0.
      destruct (String.eqb k' k) eqn:E'; [|reflexivity].
      apply String.eqb_eq in E'. contradiction.
    + now rewrite IH.
Qed.

Lemma set_field_keys k v fields :
  assoc k fields <> None ->
  map fst (set_field k v fields) = map fst fields.
Proof.
  induction fields as [| [k' v'] rest IH]; cbn; [congruence|].
  destruct (String.eqb k k') eqn:E; cbn; intros H.
  - apply String.eqb_eq in E. now subst.
  - now rewrite IH.
Qed.

Lemma set_field_twice k v v' fields :
  set_field k v (set_field k v' fields) = set_field k v fields.
Proof.
  induction fields as [| [k0 v0] rest IH]; cbn.
  - now rewrite String.eqb_refl.
  - destruct (String.eqb k k0) eqn:E; cbn.
    + now rewrite String.eqb_refl.
    + now rewrite E, IH.
Qed.

(** The merge on a document with a statement array, spelled out. *)
Lemma updateBucketPolicy_object fields stmts :
  assoc "Statement" fields = Some (JArray stmts) ->
  updateBucketPolicy bucket (JObject fields) accountIds =
  (otherStatements <- filter_cb keep_other stmts ;;
   Ok (JObject (set_field "Statement"
                  (JArray (otherStatements ++ [updatedStatement bucket accountIds])%list)
                  fields)))%res.
Proof.
  intros H. unfold updateBucketPolicy. cbn [get_prop Res.bind].
  rewrite H. reflexivity.
Qed.

(** The merge returns on policy documents, and on nothing else. *)
Lemma updateBucketPolicy_Ok_iff currentPolicy :
  (exists out, updateBucketPolicy bucket currentPolicy accountIds = Ok out)
  <-> is_policy_document currentPolicy = true.
Proof.
  unfold is_policy_document, policy_statements. split.
  - intros [out H].
    destruct currentPolicy as [| b | n | s | items | fields];
      try (cbn in H; discriminate).
    destruct (assoc "Statement" fields) as [[| b | n | s | stmts | fields']|] eqn:E;
      try (unfold updateBucketPolicy in H; cbn in H; rewrite E in H; cbn in H;
           discriminate).
    rewrite (updateBucketPolicy_object _ E) in H.
    destruct (forallb (fun s => negb (is_null s)) stmts) eqn:F; [reflexivity|].
    destruct (filter_cb_null _ F) as [e He]. rewrite He in H. discriminate.
  - intros H.
    destruct currentPolicy as [| b | n | s | items | fields]; try discriminate.
    destruct (assoc "Statement" fields) as [[| b | n | s | stmts | fields']|] eqn:E;
      try discriminate.
    rewrite (updateBucketPolicy_object _ E), (filter_cb_not_null _ H).
    cbn. eauto.
Qed.

Lemma updateBucketPolicy_Ok_object currentPolicy out :
  updateBucketPolicy bucket currentPolicy accountIds = Ok out ->
  exists fields, currentPolicy = JObject fields.
Proof.
  destruct currentPolicy; try (cbn; discriminate). eauto.
Qed.

(** The merge on a policy document, in closed form. *)
Lemma updateBucketPolicy_document fields stmts :
  assoc "Statement" fields = Some (JArray stmts) ->
  forallb (fun s => negb (is_null s)) stmts = true ->
  updateBucketPolicy bucket (JObject fields) accountIds =
  Ok (JObject (set_field "Statement"
                 (JArray (filter is_foreign stmts ++ [updatedStatement bucket accountIds]))
                 fields)).
Proof.
  intros E F. now rewrite (updateBucketPolicy_object _ E), (filter_cb_not_null _ F).
Qed.

Lemma is_policy_document_inv p :
  is_policy_document p = true ->
  exists fields stmts,
    p = JObject fields /\ assoc "Statement" fields = Some (JArray stmts) /\
    forallb (fun s => negb (is_null s)) stmts = true.
Proof.
  unfold is_policy_document, policy_statements.
  destruct p as [| b | n | s | items | fields]; try discriminate.
  destruct (assoc "Statement" fields) as [[| b | n | s | stmts | fields']|] eqn:E;
    try discriminate.
  intros F. eauto.
Qed.

End Merge.

(** ** C1 - C5: the policy merger *)

Lemma filter_foreign_managed stmts :
  filter is_managed (filter is_foreign stmts) = [].
Proof.
  induction stmts as [| s rest IH]; [reflexivity|].
  cbn [filter]. unfold is_foreign at 1.
  destruct (is_managed s) eqn:E; cbn [negb filter]; [assumption|].
  now rewrite E.
Qed.

Lemma filter_foreign_twice stmts :
  filter is_foreign (filter is_foreign stmts) = filter is_foreign stmts.
Proof.
  induction stmts as [| s rest IH]; [reflexivity|].
  cbn [filter]. destruct (is_foreign s) eqn:E; cbn [filter]; [|assumption].
  now rewrite E, IH.
Qed.

Lemma forallb_filter {A} (p q : A -> bool) l :
  forallb p l = true -> forallb p (filter q l) = true.
Proof.
  induction l as [| x rest IH]; [reflexivity|]. cbn [forallb filter].
  intros H. apply andb_prop in H as [Hx Hrest].
  destruct (q x); cbn [forallb]; [rewrite Hx|]; auto.
Qed.

Lemma updatedStatement_managed bucket accountIds :
  is_managed (updatedStatement bucket accountIds) = true.
Proof. reflexivity. Qed.



(** C2. On every policy document, however many statements carry the managed
    Sid in it, the output of the merge has exactly one statement with the
    managed Sid. *)
Theorem merge_single_managed_statement bucket currentPolicy accountIds :
  is_policy_document currentPolicy = true ->
  exists out stmts',
    updateBucketPolicy bucket currentPolicy accountIds = Ok out /\
    policy_statements out = Some stmts' /\
    length (filter is_managed stmts') = 1.
Proof.
  intros H. destruct (is_policy_document_inv _ H) as (fields & stmts & -> & E & F).
  eexists. eexists. split; [|split].
  - apply (updateBucketPolicy_document _ _ _ E F).
  - cbn. now rewrite assoc_set_field_same.
  - now rewrite filter_app, filter_foreign_managed.
Qed.

Lemma merge_single_managed_statement_sample :
  is_policy_document sample_policy = true /\
  exists out stmts',
    updateBucketPolicy sample_bucket sample_policy sample_accounts = Ok out /\
    policy_statements out = Some stmts' /\
    length (filter is_managed stmts') = 1.
Proof.
  split; [reflexivity|].
  apply (merge_single_managed_statement sample_bucket sample_policy sample_accounts).
  reflexivity.
Defined.

(** C4. The merge is idempotent: merging the output of a merge again, with
    the same bucket and accounts, gives that output; where the first merge
    throws, so does the composition, with the same error. *)
Theorem merge_idempotent bucket currentPolicy accountIds :
  (merged <- updateBucketPolicy bucket currentPolicy accountIds ;;
   updateBucketPolicy bucket merged accountIds)%res
  = updateBucketPolicy bucket currentPolicy accountIds.
Proof.
  destruct (is_policy_document currentPolicy) eqn:H.
  - destruct (is_policy_document_inv _ H) as (fields & stmts & -> & E & F).
    rewrite (updateBucketPolicy_document _ _ _ E F). cbn [Res.bind].
    rewrite (updateBucketPolicy_document bucket accountIds
               (set_field "Statement" _ fields)
               (assoc_set_field_same _ _ _)).
    + rewrite set_field_twice, filter_app, filter_foreign_twice.
      cbn [filter]. unfold is_foreign at 2.
      rewrite updatedStatement_managed. cbn [negb]. now rewrite app_nil_r.
    + rewrite forallb_app. rewrite (forallb_filter _ _ _ F). reflexivity.
  - destruct (updateBucketPolicy bucket currentPolicy accountIds) as [out|e] eqn:U;
      [|reflexivity].
    assert (is_policy_document currentPolicy = true) as H'
      by (apply (updateBucketPolicy_Ok_iff bucket accountIds); eauto).
    congruence.
Qed.

(** C5. Whenever the merge returns, the output has the top-level fields of
    the input, in the same order, and each field other than [Statement] has
    the value it had. *)
Theorem merge_copies_other_fields bucket currentPolicy accountIds out :
  updateBucketPolicy bucket currentPolicy accountIds = Ok out ->
  exists fields fields',
    currentPolicy = JObject fields /\ out = JObject fields' /\
    map fst fields' = map fst fields /\
    forall k, k <> "Statement" -> assoc k fields' = assoc k fields.
Proof.
  intros U.
  assert (is_policy_document currentPolicy = true) as H
    by (apply (updateBucketPolicy_Ok_iff bucket accountIds); eauto).
  destruct (is_policy_document_inv _ H) as (fields & stmts & -> & E & F).
  rewrite (updateBucketPolicy_document _ _ _ E F) in U. injection U as <-.
  exists fields. eexists. repeat split.
  - apply set_field_keys. congruence.
  - intros k Hk. now apply assoc_set_field_other.
Qed.

Lemma merge_copies_other_fields_sample :
  exists fields fields',
    sample_policy = JObject fields /\
    updateBucketPolicy sample_bucket sample_policy sample_accounts = Ok (JObject fields') /\
    map fst fields' = ["Version"; "Id"; "Statement"; "Note"] /\
    assoc "Version" fields' = Some (JString "2012-10-17") /\
    assoc "Id" fields' = Some (JString "bundles") /\
    assoc "Note" fields' = Some (JNumber "7").
Proof.
  destruct (merge_copies_other_fields sample_bucket sample_policy sample_accounts
              (out := JObject
                 (set_field "Statement"
                    (JArray [foreign_stmt; unnamed_stmt;
                             updatedStatement sample_bucket sample_accounts])
                    (spread sample_policy))) eq_refl)
    as (fields & fields' & Hin & Hout & Hkeys & Hother).
  exists fields, fields'. injection Hin as <-. injection Hout as <-.
  repeat split.
Defined.

(** *** The managed statement *)

Lemma string_length_append (s1 s2 : string) :
  String.length (s1 ++ s2) = String.length s1 + String.length s2.
Proof. induction s1 as [| c s1 IH]; cbn; [reflexivity | now rewrite IH]. Qed.

Lemma substring_0_append (s1 s2 : string) :
  substring 0 (String.length s1) (s1 ++ s2) = s1.
Proof.
  induction s1 as [| c s1 IH]; cbn.
  - destruct s2; reflexivity.
  - now rewrite IH.
Qed.

Lemma account_of_arn_root accountId :
  account_of_arn (account_root_arn accountId) = accountId.
Proof.
  unfold account_of_arn, account_root_arn.
  replace (String.length ("arn:aws:iam::" ++ accountId ++ ":root") - 18)
    with (String.length accountId).
  - cbn. apply substring_0_append.
  - rewrite !string_length_append. cbn. lia.
Qed.

(** C3. The managed statement that the merge builds has exactly the fields
    Sid, Effect, Principal, Action and Resource: the managed Sid, Allow, the
    account-root reference of each account in [Principal.AWS] (which decode
    back to the accounts given, no more and no fewer), the eight read-only
    permissions, and the single pattern of all objects of the bucket.  With
    no account the statement is the same with an empty [Principal.AWS].  On
    every policy document the merge returns, and this statement is the last
    one of its output. *)
Theorem managed_statement_contents bucket accountIds :
  let m := updatedStatement bucket accountIds in
  (exists fields, m = JObject fields /\
     map fst fields = ["Sid"; "Effect"; "Principal"; "Action"; "Resource"]) /\
  field "Sid" m = Some (JString "DeploymentAccess") /\
  field "Effect" m = Some (JString "Allow") /\
  field "Resource" m = Some (JString ("arn:aws:s3:::" ++ bucket ++ "/*")) /\
  field "Action" m =
    Some (JArray (map JString
            [ "s3:GetObject"; "s3:GetObjectTagging"; "s3:GetObjectAttributes";
              "s3:GetObjectVersion"; "s3:GetObjectVersionTagging";
              "s3:GetObjectVersionAttributes"; "s3:GetObjectVersionAcl";
              "s3:GetObjectAcl" ])) /\
  (exists principals,
     field "Principal" m = Some (JObject [("AWS", JArray (map JString principals))]) /\
     principals = map (fun id => "arn:aws:iam::" ++ id ++ ":root") accountIds /\
     map account_of_arn principals = accountIds) /\
  field "Principal" (updatedStatement bucket []) = Some (JObject [("AWS", JArray [])]) /\
  (forall currentPolicy,
     is_policy_document currentPolicy = true ->
     exists out stmts',
       updateBucketPolicy bucket currentPolicy accountIds = Ok out /\
       policy_statements out = Some stmts' /\
       last stmts' JNull = m).
Proof.
  cbv zeta. repeat split.
  - eexists. split; reflexivity.
  - exists (map account_root_arn accountIds). repeat split.
    + cbn. now rewrite map_map.
    + rewrite map_map. rewrite <- (map_id accountIds) at 2.
      apply map_ext. apply account_of_arn_root.
  - intros currentPolicy H.
    destruct (is_policy_document_inv _ H) as (fields & stmts & -> & E & F).
    eexists. eexists. repeat split.
    + apply (updateBucketPolicy_document _ _ _ E F).
    + cbn. now rewrite assoc_set_field_same.
    + apply last_last.
Qed.

Lemma managed_statement_contents_sample :
  is_policy_document sample_policy = true /\
  exists out stmts',
    updateBucketPolicy sample_bucket sample_policy sample_accounts = Ok out /\
    policy_statements out = Some stmts' /\
    last stmts' JNull =
      JObject
        [ ("Sid", JString "DeploymentAccess");
          ("Effect", JString "Allow");
          ("Principal",
            JObject [("AWS", JArray [ JString "arn:aws:iam::111111111111:root";
                                      JString "arn:aws:iam::222222222222:root" ])]);
          ("Action",
            JArray [ JString "s3:GetObject"; JString "s3:GetObjectTagging";
                     JString "s3:GetObjectAttributes"; JString "s3:GetObjectVersion";
                     JString "s3:GetObjectVersionTagging";
                     JString "s3:GetObjectVersionAttributes";
                     JString "s3:GetObjectVersionAcl"; JString "s3:GetObjectAcl" ]);
          ("Resource", JString "arn:aws:s3:::some-prefix-lambdabundles-eu-west-2/*") ].
Proof.
  split; [reflexivity|].
  apply (managed_statement_contents sample_bucket sample_accounts).
  reflexivity.
Defined.

(** ** C7: the account-set resolver *)

Lemma Set_has_In s x : Set_has s x = true <-> In x s.
Proof.
  unfold Set_has. rewrite existsb_exists. split.
  - intros (y & Hy & E). apply String.eqb_eq in E. now subst.
  - intros H. exists x. split; [assumption | apply String.eqb_refl].
Qed.

Lemma Set_add_In s x y : In y (Set_add s x) <-> In y s \/ y = x.
Proof.
  unfold Set_add. destruct (Set_has s x) eqn:E.
  - apply Set_has_In in E. split; [now left|]. intros [H | ->]; assumption.
  - rewrite in_app_iff. cbn. intuition.
Qed.

Lemma Set_add_NoDup s x : NoDup s -> NoDup (Set_add s x).
Proof.
  intros H. unfold Set_add. destruct (Set_has s x) eqn:E; [assumption|].
  apply NoDup_app; [assumption | repeat constructor; intros [] |].
  intros a Ha [<- | []].
  apply Set_has_In in Ha. congruence.
Qed.

Lemma fold_Set_add_In xs : forall s y,
  In y (fold_left Set_add xs s) <-> In y s \/ In y xs.
Proof.
  induction xs as [| x rest IH]; intros s y; cbn [fold_left].
  - cbn. intuition.
  - rewrite IH, Set_add_In. cbn. intuition.
Qed.

Lemma fold_Set_add_NoDup xs : forall s,
  NoDup s -> NoDup (fold_left Set_add xs s).
Proof.
  induction xs as [| x rest IH]; intros s H; cbn [fold_left]; [assumption|].
  apply IH. now apply Set_add_NoDup.
Qed.

Section ProgramFacts.

Context {W : Type} {services : Services W}.

Lemma getAccountIdsFromDynamoDB_run (w : W) :
  getAccountIdsFromDynamoDB w =
    (let (answer, w1) := dynamodb_send_Scan scan_input w in
     (match answer with
      | Ok out => Ok (accountIds_of_Items (Items out))
      | Throw e => Throw e
      end, w1, [EScan scan_input])).
Proof.
  unfold getAccountIdsFromDynamoDB, Run.bind, Run.call, Run.ret.
  destruct (dynamodb_send_Scan scan_input w) as [[out | e] w1]; reflexivity.
Qed.

(** C7. The resolver sends one scan and, when the scan answers, returns
    the identifiers of the accounts of all records, each exactly once: the
    result has no duplicate and holds an identifier exactly when some
    account of some record has it.  With no record ([Items] absent or
    empty) the result is the empty list, not an error.  A scan that fails
    is passed on.  On the two customers with accounts 111111111111 and
    222222222222, 111111111111 the result has the two identifiers. *)
Theorem getAccountIdsFromDynamoDB_dedup (w : W) :
  getAccountIdsFromDynamoDB w =
    (let (answer, w1) := dynamodb_send_Scan scan_input w in
     (match answer with
      | Ok out => Ok (accountIds_of_Items (Items out))
      | Throw e => Throw e
      end, w1, [EScan scan_input])) /\
  (forall items,
     let ids := accountIds_of_Items items in
     NoDup ids /\
     forall id,
       In id ids <->
       exists record account,
         In record (nullish items []) /\
         In account (Customer.Accounts record) /\
         Account.ID account = id) /\
  accountIds_of_Items None = [] /\
  accountIds_of_Items (Some []) = [] /\
  accountIds_of_Items (Some sample_registry) = ["111111111111"; "222222222222"].
Proof.
  split; [|split; [|repeat split]].
  - apply getAccountIdsFromDynamoDB_run.
  - intros items ids. subst ids. unfold accountIds_of_Items, Array_from_Set.
    split.
    + apply fold_Set_add_NoDup. constructor.
    + intros id. rewrite fold_Set_add_In, in_flat_map. cbn [In]. split.
      * intros [[] | (record & Hr & Hid)].
        apply in_map_iff in Hid as (account & Hid & Ha). eauto.
      * intros (record & account & Hr & Ha & Hid). right.
        exists record. split; [assumption|].
        apply in_map_iff. eauto.
Qed.

End ProgramFacts.

(** ** Runs of the program *)

Section Runs.

Context {W : Type} {services : Services W}.

Lemma is_NoSuchBucketPolicy_iff error :
  is_NoSuchBucketPolicy error = true <->
  exists fields,
    error = Rejected (JObject fields) /\
    assoc "Code" fields = Some (JString "NoSuchBucketPolicy").
Proof.
  unfold is_NoSuchBucketPolicy, Code_in, Code_is, Code_of. split.
  - destruct error as [m | m | [| b | n | s | items | fields]];
      cbn; try discriminate.
    destruct (assoc "Code" fields) as [[| b | n | s | items | fields']|] eqn:E;
      cbn; try discriminate.
    intros H. apply String.eqb_eq in H. subst. eauto.
  - intros (fields & -> & H). cbn. rewrite H. reflexivity.
Qed.

(** The fetch, by cases on the answer of the get-policy call. *)
Lemma getCurrentBucketPolicy_run client bucket (w : W) :
  getCurrentBucketPolicy client bucket w =
    (let (answer, w1) := s3_send_GetBucketPolicy client bucket w in
     (match answer with
      | Ok out => parse (or_else (Policy out) "{}")
      | Throw e => if is_NoSuchBucketPolicy e then Ok default_policy else Throw e
      end, w1, [EGetBucketPolicy client bucket])).
Proof.
  unfold getCurrentBucketPolicy, Run.try_catch, Run.bind, Run.call, Run.lift,
    Run.ret, Run.throw.
  destruct (s3_send_GetBucketPolicy client bucket w) as [[out | e] w1].
  - unfold parse. destruct (JSON_parse _) as [v|]; reflexivity.
  - destruct (is_NoSuchBucketPolicy e); reflexivity.
Qed.

(** One turn of the loop: the fetch, then the merge, then the write, each
    only if the one before returned. *)
Lemma handler_bucket_run accountIds bucket (w : W) :
  handler_bucket accountIds bucket w =
    (let client := {| region := Some (region_of_bucket bucket) |} in
     let '(fetched, w1, _) := getCurrentBucketPolicy client bucket w in
     match (currentPolicy <- fetched ;;
            updateBucketPolicy bucket currentPolicy accountIds)%res with
     | Ok updatedPolicy =>
         let policy := JSON_stringify updatedPolicy in
         let (answer, w2) := s3_send_PutBucketPolicy client bucket policy w1 in
         (answer, w2,
          [EGetBucketPolicy client bucket; EPutBucketPolicy client bucket policy])
     | Throw e => (Throw e, w1, [EGetBucketPolicy client bucket])
     end).
Proof.
  unfold handler_bucket. cbv zeta. unfold Run.bind at 1.
  rewrite getCurrentBucketPolicy_run.
  destruct (s3_send_GetBucketPolicy _ bucket w) as [answer w1].
  set (fetched := match answer with Ok _ => _ | Throw _ => _ end).
  destruct fetched as [currentPolicy | e]; [|reflexivity].
  unfold Run.bind, Run.lift, Run.call. cbn [Res.bind].
  destruct (updateBucketPolicy bucket currentPolicy accountIds) as [updated | e];
    [|reflexivity].
  destruct (s3_send_PutBucketPolicy _ _ _ w1); reflexivity.
Qed.

(** C6. The loop takes the region of a bucket with [slice(25)], while the
    prefix that selects the managed buckets has 26 characters: on a bucket
    name made of the prefix and a region token, the region the code derives
    is the token preceded by the last character of the prefix, a hyphen.
    For some-prefix-lambdabundles-eu-west-2 it derives -eu-west-2, not
    eu-west-2, and that is the region of the client the policy of that
    bucket is fetched with. *)
Theorem region_of_bucket_keeps_hyphen :
  String.length BUCKET_PREFIX = 26 /\
  (forall token,
     startsWith (BUCKET_PREFIX ++ token) BUCKET_PREFIX = true /\
     region_of_bucket (BUCKET_PREFIX ++ token) = "-" ++ token /\
     region_of_bucket (BUCKET_PREFIX ++ token) <> token) /\
  region_of_bucket "some-prefix-lambdabundles-eu-west-2" = "-eu-west-2" /\
  region_of_bucket "some-prefix-lambdabundles-eu-west-2" <> "eu-west-2" /\
  forall accountIds (w : W),
  exists r w' tr,
    handler_bucket accountIds "some-prefix-lambdabundles-eu-west-2" w
    = (r, w',
       EGetBucketPolicy {| region := Some "-eu-west-2" |}
         "some-prefix-lambdabundles-eu-west-2" :: tr).
Proof.
  split; [reflexivity|]. split; [|split; [reflexivity|split; [discriminate|]]].
  - intros token. split; [|split].
    + unfold startsWith, BUCKET_PREFIX. cbn.
      repeat (destruct (ascii_dec _ _) as [_|N]; [|now elim N]).
      destruct token; reflexivity.
    + reflexivity.
    + cbn. intros H. apply (f_equal String.length) in H. cbn in H. lia.
  - intros accountIds w. rewrite handler_bucket_run. cbv zeta.
    change (region_of_bucket "some-prefix-lambdabundles-eu-west-2")
      with "-eu-west-2".
    destruct (getCurrentBucketPolicy _ _ w) as [[fetched w1] tr0].
    destruct (Res.bind fetched _) as [updated | e]; [|eauto].
    destruct (s3_send_PutBucketPolicy _ _ _ w1); eauto.
Qed.

(** C8. When the get-policy call fails with an error object whose [Code]
    is the string NoSuchBucketPolicy, the fetch returns the empty default
    document (Version 2012-10-17, no statement); every other failure of the
    call, that is every error that is not such an object, is thrown again
    as it is; when the call answers, the fetch returns the parsed body (or
    throws the [SyntaxError] of the parse) and never the default in its
    place.  The default is a policy document like any other: from it the
    merge gives the document with the managed statement alone, and the
    loop writes that document. *)
Theorem getCurrentBucketPolicy_recovers_not_found
    client bucket (w : W) answer w1 :
  s3_send_GetBucketPolicy client bucket w = (answer, w1) ->
  (forall fields,
     answer = Throw (Rejected (JObject fields)) ->
     assoc "Code" fields = Some (JString "NoSuchBucketPolicy") ->
     getCurrentBucketPolicy client bucket w
     = (Ok default_policy, w1, [EGetBucketPolicy client bucket])) /\
  (forall e,
     answer = Throw e ->
     ~ (exists fields,
          e = Rejected (JObject fields) /\
          assoc "Code" fields = Some (JString "NoSuchBucketPolicy")) ->
     getCurrentBucketPolicy client bucket w
     = (Throw e, w1, [EGetBucketPolicy client bucket])) /\
  (forall out v,
     answer = Ok out ->
     JSON_parse (or_else (Policy out) "{}") = Some v ->
     getCurrentBucketPolicy client bucket w
     = (Ok v, w1, [EGetBucketPolicy client bucket])) /\
  (forall out,
     answer = Ok out ->
     JSON_parse (or_else (Policy out) "{}") = None ->
     exists message,
       getCurrentBucketPolicy client bucket w
       = (Throw (SyntaxError message), w1, [EGetBucketPolicy client bucket])) /\
  default_policy
  = JObject [("Statement", JArray []); ("Version", JString "2012-10-17")] /\
  is_policy_document default_policy = true /\
  (forall accountIds,
     updateBucketPolicy bucket default_policy accountIds
     = Ok (JObject [ ("Statement", JArray [updatedStatement bucket accountIds]);
                     ("Version", JString "2012-10-17") ])) /\
  (forall accountIds fields,
     client = {| region := Some (region_of_bucket bucket) |} ->
     answer = Throw (Rejected (JObject fields)) ->
     assoc "Code" fields = Some (JString "NoSuchBucketPolicy") ->
     handler_bucket accountIds bucket w
     = (let policy :=
          JSON_stringify
            (JObject [ ("Statement", JArray [updatedStatement bucket accountIds]);
                       ("Version", JString "2012-10-17") ]) in
        let (written, w2) := s3_send_PutBucketPolicy client bucket policy w1 in
        (written, w2,
         [EGetBucketPolicy client bucket; EPutBucketPolicy client bucket policy]))).
Proof.
  intros Hget.
  assert (Hrun := getCurrentBucketPolicy_run client bucket w).
  rewrite Hget in Hrun.
  assert (Hyes : forall fields,
             assoc "Code" fields = Some (JString "NoSuchBucketPolicy") ->
             is_NoSuchBucketPolicy (Rejected (JObject fields)) = true).
  { intros fields H. apply is_NoSuchBucketPolicy_iff. eauto. }
  repeat split.
  - intros fields -> Hcode. now rewrite Hrun, (Hyes _ Hcode).
  - intros e -> Hother. rewrite Hrun.
    destruct (is_NoSuchBucketPolicy e) eqn:He; [|reflexivity].
    elim Hother. now apply is_NoSuchBucketPolicy_iff.
  - intros out v -> Hparse. rewrite Hrun. unfold parse. now rewrite Hparse.
  - intros out -> Hparse. unfold parse in Hrun. rewrite Hparse in Hrun. eauto.
  - intros accountIds fields -> -> Hcode. rewrite handler_bucket_run. cbv zeta.
    rewrite Hrun, (Hyes _ Hcode). reflexivity.
Qed.

(** *** What a run emits *)

Lemma quiet_bind {A B} (P : event -> Prop) (m : Run.t W A) (k : A -> Run.t W B) w :
  Forall P (snd (m w)) ->
  (forall a w1, Forall P (snd (k a w1))) ->
  Forall P (snd (Run.bind m k w)).
Proof.
  intros Hm Hk. unfold Run.bind.
  destruct (m w) as [[[a | e] w1] tr1]; cbn in Hm; [|assumption].
  specialize (Hk a w1). destruct (k a w1) as [[r w2] tr2]. cbn in *.
  apply Forall_app. now split.
Qed.

Lemma quiet_for_of {A} (P : event -> Prop) (body : A -> Run.t W unit) xs :
  (forall x w, Forall P (snd (body x w))) ->
  forall w, Forall P (snd (for_of xs body w)).
Proof.
  intros Hbody. induction xs as [| x rest IH]; intros w; cbn [for_of].
  - constructor.
  - apply quiet_bind; [apply Hbody | intros _ w1; apply IH].
Qed.

Lemma handler_bucket_no_scan accountIds bucket (w : W) :
  Forall (fun ev => is_scan ev = false) (snd (handler_bucket accountIds bucket w)).
Proof.
  rewrite handler_bucket_run. cbv zeta.
  destruct (getCurrentBucketPolicy _ bucket w) as [[fetched w1] tr0].
  destruct (Res.bind fetched _) as [updated | e].
  - destruct (s3_send_PutBucketPolicy _ _ _ w1). cbn. repeat constructor.
  - cbn. repeat constructor.
Qed.

(** What follows the resolution of the accounts in [handler]. *)
Lemma handler_rest_no_scan accountIds (w : W) :
  Forall (fun ev => is_scan ev = false)
    (snd ((buckets <- listLambdaBundleBuckets ;;
           for_of buckets (handler_bucket accountIds) ;;;
           Run.emit (EConsoleLog "S3 bucket policy updated successfully!"))%run w)).
Proof.
  apply quiet_bind.
  - unfold listLambdaBundleBuckets, Run.bind, Run.call, Run.ret.
    destruct (s3_send_ListBuckets s3 w) as [[response | e] w1]; cbn;
      repeat constructor.
  - intros buckets w1. apply quiet_bind.
    + apply quiet_for_of. intros; apply handler_bucket_no_scan.
    + intros _ w2. cbn. repeat constructor.
Qed.

(** C9. A run of the handler starts with the scan of the registry and sends
    no other scan: every call on a bucket comes after the one resolution of
    the accounts.  If the scan fails, the run logs the error and throws it,
    and nothing else happens: no policy is fetched and none is written. *)
Theorem handler_resolves_accounts_first (w : W) :
  exists r w' tr,
    handler w = (r, w', EScan scan_input :: tr) /\
    (forall input, ~ In (EScan input) tr) /\
    (forall e w1,
       dynamodb_send_Scan scan_input w = (Throw e, w1) ->
       r = Throw e /\ w' = w1 /\
       tr = [EConsoleError "Error processing DynamoDB event:" e] /\
       forall client bucket policy,
         ~ In (EPutBucketPolicy client bucket policy) (EScan scan_input :: tr)).
Proof.
  assert (no_scan : forall tr, Forall (fun ev => is_scan ev = false) tr ->
                               forall input, ~ In (EScan input) tr).
  { intros tr H input Hin. rewrite Forall_forall in H.
    specialize (H _ Hin). discriminate. }
  unfold handler, Run.try_catch. unfold Run.bind at 1.
  rewrite getAccountIdsFromDynamoDB_run.
  destruct (dynamodb_send_Scan scan_input w) as [[out | e] w1].
  - match goal with
    | |- context [Run.bind listLambdaBundleBuckets ?k w1] =>
        pose proof (handler_rest_no_scan (accountIds_of_Items (Items out)) w1) as Hrest;
        destruct (Run.bind listLambdaBundleBuckets k w1) as [[[[] | e] w2] tr2]
    end; cbn in Hrest; cbn.
    + eexists _, _, _. split; [reflexivity|]. split; [now apply no_scan|].
      intros e w1' H. discriminate.
    + eexists _, _, _. split; [reflexivity|]. split.
      * apply no_scan. apply Forall_app. split; [assumption|].
        repeat constructor.
      * intros e' w1' H. discriminate.
  - cbn. eexists _, _, _. split; [reflexivity|]. split.
    + apply no_scan. repeat constructor.
    + intros e' w1' H. injection H as <- <-. repeat split.
      intros client bucket policy [H | [H | []]]; discriminate.
Qed.

(** C10. When the get-policy call answers with a body that parses to an
    object without a [Statement] array, the fetch returns that object and
    the merge throws a [TypeError] on it, so that the turn of the loop for
    that bucket ends there, with nothing written.  An absent or empty
    [Policy] is such a body: it is parsed as the text of the empty object,
    on which the merge fails reading [filter] of [undefined]. *)
Theorem missing_Statement_throws
    client bucket accountIds (w : W) out w1 fields :
  s3_send_GetBucketPolicy client bucket w = (Ok out, w1) ->
  JSON_parse (or_else (Policy out) "{}") = Some (JObject fields) ->
  policy_statements (JObject fields) = None ->
  getCurrentBucketPolicy client bucket w
  = (Ok (JObject fields), w1, [EGetBucketPolicy client bucket]) /\
  (exists message,
     updateBucketPolicy bucket (JObject fields) accountIds
     = Throw (TypeError message) /\
     (client = {| region := Some (region_of_bucket bucket) |} ->
      handler_bucket accountIds bucket w
      = (Throw (TypeError message), w1, [EGetBucketPolicy client bucket]))) /\
  or_else None "{}" = "{}" /\
  or_else (Some "") "{}" = "{}" /\
  updateBucketPolicy bucket (JObject []) accountIds
  = Throw (TypeError "Cannot read properties of undefined (reading 'filter')").
Proof.
  intros Hget Hparse Hnone.
  assert (Hrun := getCurrentBucketPolicy_run client bucket w).
  rewrite Hget in Hrun. unfold parse in Hrun. rewrite Hparse in Hrun.
  split; [exact Hrun|]. split; [|repeat split].
  assert (exists message,
            updateBucketPolicy bucket (JObject fields) accountIds
            = Throw (TypeError message)) as [message Hm].
  { unfold updateBucketPolicy. cbn [get_prop Res.bind].
    cbn in Hnone.
    destruct (assoc "Statement" fields) as [[| b | n | s | items | fields']|];
      try discriminate; cbn; eauto. }
  exists message. split; [exact Hm|].
  intros ->. rewrite handler_bucket_run. cbv zeta.
  rewrite Hrun. cbn [Res.bind]. now rewrite Hm.
Qed.

End Runs.

(** ** Runs against the mock *)

Lemma getCurrentBucketPolicy_recovers_not_found_sample :
  let found := mock_services (Ok {| Items := Some sample_registry |}) [sample_bucket] in
  let denying :=
    mock_services_denying (Ok {| Items := Some sample_registry |})
      [sample_bucket] [sample_bucket] [] in
  let client := {| region := Some (region_of_bucket sample_bucket) |} in
  let no_policy :=
    [ ("name", JString "NoSuchBucketPolicy");
      ("Code", JString "NoSuchBucketPolicy");
      ("message", JString "The bucket policy does not exist") ] in
  (@s3_send_GetBucketPolicy _ found client sample_bucket []
   = (Throw (Rejected (JObject no_policy)), []) /\
   assoc "Code" no_policy = Some (JString "NoSuchBucketPolicy") /\
   @getCurrentBucketPolicy _ found client sample_bucket []
   = (Ok default_policy, [], [EGetBucketPolicy client sample_bucket])) /\
  (@s3_send_GetBucketPolicy _ denying client sample_bucket []
   = (Throw AccessDenied_error, []) /\
   ~ (exists fields,
        AccessDenied_error = Rejected (JObject fields) /\
        assoc "Code" fields = Some (JString "NoSuchBucketPolicy")) /\
   @getCurrentBucketPolicy _ denying client sample_bucket []
   = (Throw AccessDenied_error, [], [EGetBucketPolicy client sample_bucket])).
Proof.
  intros found denying client no_policy.
  assert (Hother : ~ (exists fields,
                        AccessDenied_error = Rejected (JObject fields) /\
                        assoc "Code" fields = Some (JString "NoSuchBucketPolicy"))).
  { intros (fields & H & Hcode). injection H as <-. discriminate Hcode. }
  split.
  - split; [reflexivity|]. split; [reflexivity|].
    exact (proj1 (@getCurrentBucketPolicy_recovers_not_found _ found client
                    sample_bucket [] (Throw (Rejected (JObject no_policy))) [] eq_refl)
             no_policy eq_refl eq_refl).
  - split; [reflexivity|]. split; [exact Hother|].
    exact (proj1 (proj2 (@getCurrentBucketPolicy_recovers_not_found _ denying client
                           sample_bucket [] (Throw AccessDenied_error) [] eq_refl))
             AccessDenied_error eq_refl Hother).
Defined.

Lemma handler_resolves_accounts_first_sample :
  let services := mock_services (Throw AccessDenied_error) [sample_bucket] in
  dynamodb_send_Scan scan_input [] = (Throw AccessDenied_error, []) /\
  exists r w' tr,
    handler [] = (r, w', EScan scan_input :: tr) /\
    r = Throw AccessDenied_error /\
    tr = [EConsoleError "Error processing DynamoDB event:" AccessDenied_error].
Proof.
  intros services. split; [reflexivity|].
  destruct (@handler_resolves_accounts_first _ services [])
    as (r & w' & tr & Hrun & _ & Hfail).
  destruct (Hfail AccessDenied_error [] eq_refl) as (Hr & _ & Htr & _).
  exists r, w', tr. repeat split; assumption.
Defined.

Lemma missing_Statement_throws_sample :
  let services := mock_services (Ok {| Items := Some sample_registry |}) [sample_bucket] in
  let client := {| region := Some (region_of_bucket sample_bucket) |} in
  let store := [(sample_bucket, "")] in
  s3_send_GetBucketPolicy client sample_bucket store = (Ok {| Policy := Some "" |}, store) /\
  JSON_parse (or_else (Some "") "{}") = Some (JObject []) /\
  policy_statements (JObject []) = None /\
  getCurrentBucketPolicy client sample_bucket store
  = (Ok (JObject []), store, [EGetBucketPolicy client sample_bucket]) /\
  exists message,
    updateBucketPolicy sample_bucket (JObject []) sample_accounts
    = Throw (TypeError message) /\
    handler_bucket sample_accounts sample_bucket store
    = (Throw (TypeError message), store, [EGetBucketPolicy client sample_bucket]).
Proof.
  intros services client store.
  split; [reflexivity|]. split; [reflexivity|]. split; [reflexivity|].
  destruct (@missing_Statement_throws _ services client sample_bucket sample_accounts
              store {| Policy := Some "" |} store [] eq_refl eq_refl eq_refl)
    as (Hfetch & (message & Hmerge & Hturn) & _).
  split; [exact Hfetch|].
  exists message. split; [exact Hmerge | exact (Hturn eq_refl)].
Defined.

(** ** More on the merger *)

Lemma filter_cb_null_TypeError stmts :
  forallb (fun s => negb (is_null s)) stmts = false ->
  exists message, filter_cb keep_other stmts = Throw (TypeError message).
Proof.
  induction stmts as [| s rest IH]; intros H; [discriminate|].
  cbn [forallb] in H. cbn [filter_cb].
  destruct (is_null s) eqn:Hs.
  - destruct s; try discriminate. cbn. eauto.
  - rewrite (keep_other_not_null _ Hs). cbn [Res.bind].
    cbn in H. destruct (IH H) as [message Hm]. rewrite Hm. cbn. eauto.
Qed.

(** What the merge throws does not depend on the bucket or the accounts. *)
Lemma updateBucketPolicy_Throw_any bucket accountIds bucket' accountIds' p e :
  updateBucketPolicy bucket p accountIds = Throw e ->
  updateBucketPolicy bucket' p accountIds' = Throw e.
Proof.
  unfold updateBucketPolicy.
  destruct (get_prop p "Statement") as [Statement | e0]; cbn [Res.bind];
    [|trivial].
  destruct (call_filter Statement keep_other) as [others | e0]; cbn [Res.bind];
    [discriminate | trivial].
Qed.

(** A merge after a merge, in closed form. *)
Lemma updateBucketPolicy_after bucket accountIds bucket' accountIds' fields stmts :
  assoc "Statement" fields = Some (JArray stmts) ->
  forallb (fun s => negb (is_null s)) stmts = true ->
  updateBucketPolicy bucket'
    (JObject (set_field "Statement"
                (JArray (filter is_foreign stmts ++ [updatedStatement bucket accountIds])%list)
                fields))
    accountIds'
  = updateBucketPolicy bucket' (JObject fields) accountIds'.
Proof.
  intros E F.
  rewrite (updateBucketPolicy_document bucket' accountIds' _ E F).
  rewrite (updateBucketPolicy_document bucket' accountIds'
             (set_field "Statement" _ fields) (assoc_set_field_same _ _ _)).
  - rewrite set_field_twice, filter_app, filter_foreign_twice.
    cbn [filter]. unfold is_foreign at 2.
    rewrite updatedStatement_managed. cbn [negb]. now rewrite app_nil_r.
  - rewrite forallb_app, (forallb_filter _ _ _ F). reflexivity.
Qed.

(** X1. The merge either returns or throws a [TypeError], nothing else: it
    returns exactly on the objects whose [Statement] is an array without
    [null], and what it returns is such an object again. *)
Theorem updateBucketPolicy_returns_or_TypeError bucket currentPolicy accountIds :
  (is_policy_document currentPolicy = true /\
   exists out,
     updateBucketPolicy bucket currentPolicy accountIds = Ok out /\
     is_policy_document out = true) \/
  (is_policy_document currentPolicy = false /\
   exists message,
     updateBucketPolicy bucket currentPolicy accountIds = Throw (TypeError message)).
Proof.
  destruct (is_policy_document currentPolicy) eqn:H.
  - left. split; [reflexivity|].
    destruct (is_policy_document_inv _ H) as (fields & stmts & -> & E & F).
    eexists. split; [apply (updateBucketPolicy_document _ _ _ E F)|].
    unfold is_policy_document, policy_statements.
    rewrite assoc_set_field_same, forallb_app, (forallb_filter _ _ _ F).
    reflexivity.
  - right. split; [reflexivity|].
    unfold is_policy_document, policy_statements in H.
    destruct currentPolicy as [| b | n | s | items | fields];
      try (cbn; eauto; fail).
    destruct (assoc "Statement" fields) as [[| b | n | s | stmts | fields']|] eqn:E;
      try (unfold updateBucketPolicy; cbn; rewrite E; cbn; eauto; fail).
    rewrite (updateBucketPolicy_object _ _ _ E).
    destruct (filter_cb_null_TypeError _ H) as [message Hm].
    rewrite Hm. cbn. eauto.
Qed.

(** X2. A merge makes every earlier merge forgotten: merging for a bucket
    and accounts the output of a merge for any bucket and accounts gives
    what merging the original document gives; where the first merge throws,
    so does the direct one, with the same error. *)
Theorem merge_absorbs_earlier_merge
    bucket accountIds bucket' accountIds' currentPolicy :
  (merged <- updateBucketPolicy bucket currentPolicy accountIds ;;
   updateBucketPolicy bucket' merged accountIds')%res
  = updateBucketPolicy bucket' currentPolicy accountIds'.
Proof.
  destruct (is_policy_document currentPolicy) eqn:H.
  - destruct (is_policy_document_inv _ H) as (fields & stmts & -> & E & F).
    rewrite (updateBucketPolicy_document bucket accountIds _ E F). cbn [Res.bind].
    apply (updateBucketPolicy_after _ _ _ _ _ E F).
  - destruct (updateBucketPolicy bucket currentPolicy accountIds) as [out | e] eqn:U.
    + assert (is_policy_document currentPolicy = true) as H'
        by (apply (updateBucketPolicy_Ok_iff bucket accountIds); eauto).
      congruence.
    + cbn [Res.bind]. symmetry.
      apply (updateBucketPolicy_Throw_any _ _ _ _ _ U).
Qed.

(** ** More on the resolver *)

Lemma Set_has_app s x y :
  Set_has (s ++ [x]) y = Set_has s y || String.eqb y x.
Proof.
  unfold Set_has. rewrite existsb_app. cbn. now rewrite orb_false_r.
Qed.

Lemma filter_filter_ext {A} (p q r : A -> bool) l :
  (forall a, r a = q a && p a) ->
  filter q (filter p l) = filter r l.
Proof.
  intros H. induction l as [| a l IH]; [reflexivity|]. cbn [filter].
  rewrite H. destruct (p a); cbn [filter].
  - destruct (q a); cbn; now rewrite IH.
  - rewrite andb_false_r. exact IH.
Qed.

(** A set that is filled from a non-empty start: the start, then the new
    members in the order in which an empty set would have got them. *)
Lemma fold_Set_add_from xs : forall s,
  fold_left Set_add xs s
  = (s ++ filter (fun y => negb (Set_has s y)) (fold_left Set_add xs []))%list.
Proof.
  induction xs as [| x rest IH]; intros s; cbn [fold_left].
  - cbn. now rewrite app_nil_r.
  - rewrite (IH (Set_add s x)), (IH (Set_add [] x)).
    change (Set_add [] x) with [x].
    generalize (fold_left Set_add rest []). intros others.
    rewrite filter_app. cbn [filter].
    unfold Set_add. destruct (Set_has s x) eqn:E; cbn [negb app].
    + f_equal. symmetry. apply filter_filter_ext.
      intros a. cbn. rewrite orb_false_r.
      destruct (Set_has s a) eqn:Ea; [reflexivity|]. cbn.
      destruct (String.eqb a x) eqn:Eax; [|reflexivity].
      apply String.eqb_eq in Eax. congruence.
    + rewrite <- app_assoc. cbn [app]. do 2 f_equal.
      symmetry. apply filter_filter_ext.
      intros a. rewrite Set_has_app. cbn. rewrite orb_false_r.
      destruct (Set_has s a), (String.eqb a x); reflexivity.
Qed.

Lemma Array_from_Set_cons x xs :
  Array_from_Set (x :: xs)
  = x :: filter (fun y => negb (String.eqb y x)) (Array_from_Set xs).
Proof.
  unfold Array_from_Set. cbn [fold_left]. rewrite fold_Set_add_from.
  cbn. f_equal. apply filter_ext. intros a. now rewrite orb_false_r.
Qed.

Lemma filter_all {A} (p : A -> bool) l :
  (forall a, In a l -> p a = true) -> filter p l = l.
Proof.
  induction l as [| a l IH]; intros H; [reflexivity|]. cbn [filter].
  rewrite (H a (or_introl eq_refl)). f_equal. apply IH. intros b Hb.
  apply H. now right.
Qed.

Lemma Array_from_Set_NoDup_id xs : NoDup xs -> Array_from_Set xs = xs.
Proof.
  induction 1 as [| x xs Hx Hxs IH]; [reflexivity|].
  rewrite Array_from_Set_cons, IH. f_equal. apply filter_all.
  intros a Ha. apply negb_true_iff, String.eqb_neq. congruence.
Qed.

(** X3. The resolver lists the identifiers in the order of their first
    occurrence in the registry: the first identifier read comes first, and
    the rest is what the rest of the registry gives, without it.  So
    resolving a resolved list changes nothing, and there are never more
    identifiers than accounts read. *)
Theorem Array_from_Set_first_occurrences :
  (forall x xs,
     Array_from_Set (x :: xs)
     = x :: filter (fun y => negb (String.eqb y x)) (Array_from_Set xs)) /\
  (forall xs, Array_from_Set (Array_from_Set xs) = Array_from_Set xs) /\
  (forall xs, length (Array_from_Set xs) <= length xs) /\
  (forall items,
     accountIds_of_Items (Some items) = Array_from_Set (concat (ids_by_record items))).
Proof.
  split; [exact Array_from_Set_cons|]. split; [|split].
  - intros xs. apply Array_from_Set_NoDup_id.
    apply fold_Set_add_NoDup. constructor.
  - induction xs as [| x xs IH]; [cbn; lia|].
    rewrite Array_from_Set_cons. cbn [length].
    pose proof (filter_length_le (fun y => negb (String.eqb y x)) (Array_from_Set xs)).
    lia.
  - intros items. unfold accountIds_of_Items, ids_by_record. cbn [nullish].
    now rewrite flat_map_concat_map.
Qed.

(** X4. The resolver reads the identifiers of the accounts and nothing
    else: two registries with the same identifiers, record by record,
    resolve to the same list, whatever the [Enabled] and [Active] flags and
    the other fields say. *)
Theorem accountIds_depend_on_IDs_only items items' :
  ids_by_record items = ids_by_record items' ->
  accountIds_of_Items (Some items) = accountIds_of_Items (Some items').
Proof.
  intros H. unfold accountIds_of_Items. cbn [nullish].
  rewrite !flat_map_concat_map. unfold ids_by_record in H. now rewrite H.
Qed.

Lemma accountIds_depend_on_IDs_only_sample :
  ids_by_record sample_registry = ids_by_record sample_registry_disabled /\
  accountIds_of_Items (Some sample_registry)
  = accountIds_of_Items (Some sample_registry_disabled).
Proof.
  split; [reflexivity|].
  apply (accountIds_depend_on_IDs_only sample_registry sample_registry_disabled).
  reflexivity.
Defined.

(** ** More on discovery and on the region *)


Lemma substring_0_length s : substring 0 (String.length s) s = s.
Proof. induction s as [| c s IH]; cbn; [reflexivity | now rewrite IH]. Qed.

(** X6. [slice] drops exactly the first [n] characters: what follows a
    prefix of length [n] is returned whole, a string of at most [n]
    characters gives the empty string (no error), the length is the
    length less [n], and the result is the substring from [n] to the end. *)
Theorem slice_drops_exactly :
  (forall a b, slice (String.length a) (a ++ b) = b) /\
  (forall s k, slice (String.length s + k) s = "") /\
  (forall n s, String.length (slice n s) = String.length s - n) /\
  (forall n s, slice n s = substring n (String.length s - n) s).
Proof.
  repeat split.
  - intros a b. induction a as [| c a IH]; [reflexivity | exact IH].
  - intros s. induction s as [| c s IH]; intros k; [destruct k; reflexivity|].
    cbn. apply IH.
  - intros n. induction n as [| n IH]; intros s; cbn.
    + lia.
    + destruct s as [| c s]; [reflexivity|]. cbn. apply IH.
  - intros n. induction n as [| n IH]; intros s; cbn [slice].
    + rewrite Nat.sub_0_r. symmetry. apply substring_0_length.
    + destruct s as [| c s]; [reflexivity|]. cbn. apply IH.
Qed.

Section MoreRuns.

Context {W : Type} {services : Services W}.


(** X7. A body that is not JSON is fatal: when the get-policy call answers
    and the body does not parse, the fetch throws the [SyntaxError] (the
    default document is not put in its place) and the turn of the loop
    ends there, with nothing written. *)
Theorem malformed_policy_is_fatal client bucket accountIds (w : W) out w1 :
  s3_send_GetBucketPolicy client bucket w = (Ok out, w1) ->
  JSON_parse (or_else (Policy out) "{}") = None ->
  exists message,
    getCurrentBucketPolicy client bucket w
    = (Throw (SyntaxError message), w1, [EGetBucketPolicy client bucket]) /\
    (client = client_of bucket ->
     handler_bucket accountIds bucket w
     = (Throw (SyntaxError message), w1, [EGetBucketPolicy client bucket])).
Proof.
  intros Hget Hparse.
  assert (Hrun := getCurrentBucketPolicy_run client bucket w).
  rewrite Hget in Hrun. unfold parse in Hrun. rewrite Hparse in Hrun.
  eexists. split; [exact Hrun|].
  intros ->. rewrite handler_bucket_run. cbv zeta.
  unfold client_of in Hrun. rewrite Hrun. reflexivity.
Qed.

(** X8. The fetch takes an error for "no policy" exactly when the error is
    an object with a [Code] property that is the string NoSuchBucketPolicy:
    an error of the runtime, a rejection that is not an object, and an
    object without [Code] (whatever its [name]) are all thrown again. *)
Theorem NoSuchBucketPolicy_test_exact :
  (forall error,
     is_NoSuchBucketPolicy error = true <->
     exists fields,
       error = Rejected (JObject fields) /\
       assoc "Code" fields = Some (JString "NoSuchBucketPolicy")) /\
  (forall message, is_NoSuchBucketPolicy (TypeError message) = false) /\
  (forall message, is_NoSuchBucketPolicy (SyntaxError message) = false) /\
  (forall fields,
     assoc "Code" fields = None ->
     is_NoSuchBucketPolicy (Rejected (JObject fields)) = false) /\
  (forall client bucket (w : W) e w1,
     s3_send_GetBucketPolicy client bucket w = (Throw e, w1) ->
     getCurrentBucketPolicy client bucket w
     = (if is_NoSuchBucketPolicy e then Ok default_policy else Throw e,
        w1, [EGetBucketPolicy client bucket])).
Proof.
  split; [exact is_NoSuchBucketPolicy_iff|]. repeat split.
  - intros fields H. unfold is_NoSuchBucketPolicy, Code_in, Code_of.
    rewrite H. reflexivity.
  - intros client bucket w e w1 H.
    rewrite getCurrentBucketPolicy_run, H. reflexivity.
Qed.

(** *** The shape of a run *)

Lemma bind_Ok_inv {A B} (r : result A) (k : A -> result B) b :
  Res.bind r k = Ok b -> exists a, r = Ok a /\ k a = Ok b.
Proof. destruct r as [a | e]; [eauto | discriminate]. Qed.

(** What a merge that returns has built. *)
Lemma updateBucketPolicy_Ok_statements bucket currentPolicy accountIds out :
  updateBucketPolicy bucket currentPolicy accountIds = Ok out ->
  exists others,
    policy_statements out = Some (others ++ [updatedStatement bucket accountIds])%list /\
    filter is_managed others = [].
Proof.
  intros U.
  assert (is_policy_document currentPolicy = true) as H
    by (apply (updateBucketPolicy_Ok_iff bucket accountIds); eauto).
  destruct (is_policy_document_inv _ H) as (fields & stmts & -> & E & F).
  rewrite (updateBucketPolicy_document _ _ _ E F) in U. injection U as <-.
  exists (filter is_foreign stmts). split.
  - cbn. now rewrite assoc_set_field_same.
  - apply filter_foreign_managed.
Qed.

(** The loop: the turns that reached their write, then at most the fetch
    of the turn that failed before its write; what is left of the buckets
    was not touched. *)
Lemma loop_shape accountIds buckets : forall w : W,
  exists r w' written tail rest,
    for_of buckets (handler_bucket accountIds) w
    = (r, w', (flat_map turn_events written ++ tail)%list) /\
    buckets = (map fst written ++ rest)%list /\
    (forall a, r = Ok a -> rest = [] /\ tail = []) /\
    (tail = [] \/
     exists b rest', rest = b :: rest' /\ tail = [EGetBucketPolicy (client_of b) b]) /\
    Forall (fun entry =>
              exists current doc,
                updateBucketPolicy (fst entry) current accountIds = Ok doc /\
                snd entry = JSON_stringify doc) written.
Proof.
  induction buckets as [| b rest IH]; intros w.
  - exists (Ok tt), w, [], [], []. cbn. repeat split; auto.
  - cbn [for_of]. unfold Run.bind at 1. rewrite handler_bucket_run. cbv zeta.
    destruct (getCurrentBucketPolicy _ b w) as [[fetched w1] tr0].
    destruct (Res.bind fetched _) as [updated | e] eqn:M.
    + apply bind_Ok_inv in M as (current & _ & M).
      destruct (s3_send_PutBucketPolicy _ b _ w1) as [[[] | e] w2].
      * destruct (IH w2) as (r & w' & written & tail & rest' & Hrun & Hb & Hok & Htail & Hw).
        rewrite Hrun.
        exists r, w', ((b, JSON_stringify updated) :: written), tail, rest'.
        repeat split.
        -- cbn. subst rest. reflexivity.
        -- apply (Hok a H).
        -- apply (Hok a H).
        -- exact Htail.
        -- constructor; [cbn; eauto | exact Hw].
      * exists (Throw e), w2, [(b, JSON_stringify updated)], [], rest.
        repeat split; try discriminate; auto.
        constructor; [cbn; eauto | constructor].
    + exists (Throw e), w1, [], [EGetBucketPolicy (client_of b) b], (b :: rest).
      repeat split; try discriminate; eauto.
Qed.

(** The handler, by cases on the answers of the scan and of the listing. *)
Lemma handler_run (w : W) :
  handler w =
    (let (scanned, w0) := dynamodb_send_Scan scan_input w in
     match scanned with
     | Throw e => (Throw e, w0, [EScan scan_input; console_of (Throw e)])
     | Ok out =>
         let (listed, w1) := s3_send_ListBuckets s3 w0 in
         match listed with
         | Throw e =>
             (Throw e, w1, [EScan scan_input; EListBuckets s3; console_of (Throw e)])
         | Ok response =>
             let '(r, w2, tr) :=
               for_of (lambdaBundleBuckets_of (Buckets response))
                 (handler_bucket (accountIds_of_Items (Items out))) w1 in
             (r, w2, ([EScan scan_input; EListBuckets s3] ++ tr ++ [console_of r])%list)
         end
     end).
Proof.
  unfold handler, Run.try_catch. unfold Run.bind at 1.
  rewrite getAccountIdsFromDynamoDB_run.
  destruct (dynamodb_send_Scan scan_input w) as [[out | e] w0]; [|reflexivity].
  unfold Run.bind at 1. unfold listLambdaBundleBuckets.
  unfold Run.bind at 1. unfold Run.call, Run.ret.
  destruct (s3_send_ListBuckets s3 w0) as [[response | e] w1]; [|reflexivity].
  unfold Run.bind, Run.emit, Run.throw.
  destruct (for_of _ _ w1) as [[[[] | e] w2] tr]; cbn;
    rewrite ?app_nil_r, <- ?app_assoc; reflexivity.
Qed.

Lemma turn_events_no_console written :
  Forall (fun ev => is_console ev = false) (flat_map turn_events written).
Proof.
  induction written as [| entry written IH]; cbn; repeat constructor. exact IH.
Qed.

Lemma discovered_startsWith listed name :
  In name (lambdaBundleBuckets_of listed) -> startsWith name BUCKET_PREFIX = true.
Proof. unfold lambdaBundleBuckets_of. rewrite filter_In. now intros [_ H]. Qed.

Lemma turn_events_on_managed written :
  (forall b, In b (map fst written) -> startsWith b BUCKET_PREFIX = true) ->
  Forall on_managed_bucket (flat_map turn_events written).
Proof.
  induction written as [| entry written IH]; intros H; cbn; [constructor|].
  assert (startsWith (fst entry) BUCKET_PREFIX = true) as Hb
    by (apply H; now left).
  repeat constructor; try assumption.
  apply IH. intros b Hin. apply H. now right.
Qed.

Lemma updateBucketPolicy_Ok_fixed bucket currentPolicy accountIds merged :
  updateBucketPolicy bucket currentPolicy accountIds = Ok merged ->
  updateBucketPolicy bucket merged accountIds = Ok merged.
Proof.
  intros U.
  assert (is_policy_document currentPolicy = true) as H
    by (apply (updateBucketPolicy_Ok_iff bucket accountIds); eauto).
  destruct (is_policy_document_inv _ H) as (fields & stmts & -> & E & F).
  rewrite (updateBucketPolicy_document _ _ _ E F) in U. injection U as <-.
  rewrite (updateBucketPolicy_after _ _ _ _ _ E F).
  apply (updateBucketPolicy_document _ _ _ E F).
Qed.

(** A loop whose first buckets all returned goes on with the others from
    the world they left. *)
Lemma for_of_app_Ok {A} (body : A -> Run.t W unit) done : forall others w wb trd,
  for_of done body w = (Ok tt, wb, trd) ->
  for_of (done ++ others) body w
  = (let '(r, w', tr) := for_of others body wb in (r, w', (trd ++ tr)%list)).
Proof.
  induction done as [| a done IH]; intros others w wb trd H.
  - cbn in H. injection H as <- <-. cbn.
    destruct (for_of others body w) as [[r w'] tr]. reflexivity.
  - cbn [for_of app] in *. unfold Run.bind in *.
    destruct (body a w) as [[[[] | e] wa] tra]; [|discriminate].
    destruct (for_of done body wa) as [[r2 w2] tr2] eqn:E.
    injection H as -> -> <-.
    rewrite (IH others wa wb tr2 E).
    destruct (for_of others body wb) as [[r w'] tr].
    now rewrite app_assoc.
Qed.

(** X9. Once the accounts are resolved and the buckets listed, the run
    takes the discovered buckets in order, one fetch then one write for
    each, and every policy written is the text of a document whose one
    managed statement is the statement built for that bucket and for the
    accounts resolved at the start.  A turn fails with the error of its
    fetch, of its merge, or of its write when the put-policy call is
    rejected; otherwise it returns.  The run stops at the first turn that
    fails: it throws that error, the buckets after it are not touched and
    the writes already made stay; after a turn that returns it goes on
    with the next bucket. *)
Theorem handler_turn_by_turn (w : W) out w0 response w1 :
  dynamodb_send_Scan scan_input w = (Ok out, w0) ->
  s3_send_ListBuckets s3 w0 = (Ok response, w1) ->
  (exists r w' written tail rest,
     handler w
     = (r, w',
        ([EScan scan_input; EListBuckets s3]
         ++ flat_map turn_events written ++ tail ++ [console_of r])%list) /\
     lambdaBundleBuckets_of (Buckets response) = (map fst written ++ rest)%list /\
     (forall a, r = Ok a -> rest = [] /\ tail = []) /\
     (tail = [] \/
      exists b rest', rest = b :: rest' /\ tail = [EGetBucketPolicy (client_of b) b]) /\
     Forall (fun entry =>
               exists doc others,
                 snd entry = JSON_stringify doc /\
                 policy_statements doc =
                   Some (others ++ [updatedStatement (fst entry)
                                      (accountIds_of_Items (Items out))])%list /\
                 filter is_managed others = []) written) /\
  (forall accountIds b wb e wc tr,
     getCurrentBucketPolicy (client_of b) b wb = (Throw e, wc, tr) ->
     handler_bucket accountIds b wb
     = (Throw e, wc, [EGetBucketPolicy (client_of b) b])) /\
  (forall accountIds b wb current wc tr e,
     getCurrentBucketPolicy (client_of b) b wb = (Ok current, wc, tr) ->
     updateBucketPolicy b current accountIds = Throw e ->
     handler_bucket accountIds b wb
     = (Throw e, wc, [EGetBucketPolicy (client_of b) b])) /\
  (forall accountIds b wb current wc tr doc answer w',
     getCurrentBucketPolicy (client_of b) b wb = (Ok current, wc, tr) ->
     updateBucketPolicy b current accountIds = Ok doc ->
     s3_send_PutBucketPolicy (client_of b) b (JSON_stringify doc) wc = (answer, w') ->
     handler_bucket accountIds b wb
     = (answer, w', turn_events (b, JSON_stringify doc))) /\
  (forall done b rest wb trd e w' trb,
     lambdaBundleBuckets_of (Buckets response) = (done ++ b :: rest)%list ->
     for_of done (handler_bucket (accountIds_of_Items (Items out))) w1
     = (Ok tt, wb, trd) ->
     handler_bucket (accountIds_of_Items (Items out)) b wb = (Throw e, w', trb) ->
     handler w
     = (Throw e, w',
        ([EScan scan_input; EListBuckets s3] ++ trd ++ trb
         ++ [EConsoleError "Error processing DynamoDB event:" e])%list)) /\
  (forall done b wb trd w' trb,
     for_of done (handler_bucket (accountIds_of_Items (Items out))) w1
     = (Ok tt, wb, trd) ->
     handler_bucket (accountIds_of_Items (Items out)) b wb = (Ok tt, w', trb) ->
     for_of (done ++ [b]) (handler_bucket (accountIds_of_Items (Items out))) w1
     = (Ok tt, w', (trd ++ trb)%list)).
Proof.
  intros Hscan Hlist.
  split; [|split; [|split; [|split; [|split]]]].
  - rewrite handler_run, Hscan, Hlist.
    destruct (loop_shape (accountIds_of_Items (Items out))
                (lambdaBundleBuckets_of (Buckets response)) w1)
      as (r & w' & written & tail & rest & Hrun & Hb & Hok & Htail & Hw).
    rewrite Hrun. exists r, w', written, tail, rest.
    split; [now rewrite <- app_assoc|]. repeat split; try assumption.
    + apply (Hok a H).
    + apply (Hok a H).
    + eapply Forall_impl; [|exact Hw].
      intros entry (current & doc & U & Htext).
      destruct (updateBucketPolicy_Ok_statements _ _ _ U) as (others & Hs & Hm).
      eauto.
  - intros accountIds b wb e wc tr Hfetch.
    rewrite handler_bucket_run. cbv zeta. unfold client_of in Hfetch.
    rewrite Hfetch. reflexivity.
  - intros accountIds b wb current wc tr e Hfetch Hmerge.
    rewrite handler_bucket_run. cbv zeta. unfold client_of in Hfetch.
    rewrite Hfetch. cbn [Res.bind]. rewrite Hmerge. reflexivity.
  - intros accountIds b wb current wc tr doc answer w' Hfetch Hmerge Hput.
    rewrite handler_bucket_run. cbv zeta. unfold client_of in Hfetch, Hput.
    rewrite Hfetch. cbn [Res.bind]. rewrite Hmerge, Hput. reflexivity.
  - intros done b rest wb trd e w' trb Hb Hdone Hturn.
    rewrite handler_run, Hscan, Hlist, Hb.
    rewrite (for_of_app_Ok _ _ (b :: rest) _ Hdone).
    cbn [for_of]. unfold Run.bind at 1. rewrite Hturn.
    cbn. now rewrite <- !app_assoc.
  - intros done b wb trd w' trb Hdone Hturn.
    rewrite (for_of_app_Ok _ _ [b] _ Hdone).
    cbn [for_of]. unfold Run.bind, Run.ret. rewrite Hturn.
    now rewrite app_nil_r.
Qed.

(** X10. A run that succeeds has resolved the accounts, listed the buckets
    and, for every discovered bucket, in order, fetched its policy and
    written one back, and nothing else; it ends with the success message. *)
Theorem handler_success_writes_every_bucket (w : W) w' tr :
  handler w = (Ok tt, w', tr) ->
  exists out w0 response w1 written,
    dynamodb_send_Scan scan_input w = (Ok out, w0) /\
    s3_send_ListBuckets s3 w0 = (Ok response, w1) /\
    map fst written = lambdaBundleBuckets_of (Buckets response) /\
    tr = ([EScan scan_input; EListBuckets s3]
          ++ flat_map turn_events written
          ++ [EConsoleLog "S3 bucket policy updated successfully!"])%list.
Proof.
  rewrite handler_run.
  destruct (dynamodb_send_Scan scan_input w) as [[out | e] w0]; [|discriminate].
  destruct (s3_send_ListBuckets s3 w0) as [[response | e] w1] eqn:Hlist;
    [|discriminate].
  destruct (loop_shape (accountIds_of_Items (Items out))
              (lambdaBundleBuckets_of (Buckets response)) w1)
    as (r & w2 & written & tail & rest & Hrun & Hb & Hok & _).
  rewrite Hrun. intros H. injection H as -> -> <-.
  destruct (Hok tt eq_refl) as [-> ->]. rewrite app_nil_r in Hb.
  exists out, w0, response, w1, written.
  split; [reflexivity|]. split; [exact Hlist|]. split; [now symmetry|].
  cbn. now rewrite app_nil_r.
Qed.

(** X11. Every run prints exactly once, as its last act: the success
    message when it returns, and the error it then throws, unchanged, when
    it fails. *)
Theorem handler_reports_once (w : W) :
  exists r w' tr,
    handler w = (r, w', (tr ++ [console_of r])%list) /\
    Forall (fun ev => is_console ev = false) tr.
Proof.
  rewrite handler_run.
  destruct (dynamodb_send_Scan scan_input w) as [[out | e] w0].
  - destruct (s3_send_ListBuckets s3 w0) as [[response | e] w1].
    + destruct (loop_shape (accountIds_of_Items (Items out))
                  (lambdaBundleBuckets_of (Buckets response)) w1)
        as (r & w2 & written & tail & rest & Hrun & _ & _ & Htail & _).
      rewrite Hrun.
      exists r, w2, ([EScan scan_input; EListBuckets s3]
                     ++ flat_map turn_events written ++ tail)%list.
      split; [now rewrite <- !app_assoc|].
      repeat (apply Forall_app; split); [repeat constructor | apply turn_events_no_console |].
      destruct Htail as [-> | (b & rest' & _ & ->)]; repeat constructor.
    + exists (Throw e), w1, [EScan scan_input; EListBuckets s3].
      split; [reflexivity | repeat constructor].
  - exists (Throw e), w0, [EScan scan_input].
    split; [reflexivity | repeat constructor].
Qed.

(** X12. If the listing of the buckets fails, the run ends there with that
    error: the accounts were resolved, but no policy is fetched and none is
    written. *)
Theorem handler_listing_failure (w : W) out w0 e w1 :
  dynamodb_send_Scan scan_input w = (Ok out, w0) ->
  s3_send_ListBuckets s3 w0 = (Throw e, w1) ->
  handler w
  = (Throw e, w1,
     [ EScan scan_input; EListBuckets s3;
       EConsoleError "Error processing DynamoDB event:" e ]).
Proof. intros Hscan Hlist. now rewrite handler_run, Hscan, Hlist. Qed.

(** X13. With no managed bucket in the listing the run succeeds without a
    call on any bucket. *)
Theorem handler_no_managed_bucket (w : W) out w0 response w1 :
  dynamodb_send_Scan scan_input w = (Ok out, w0) ->
  s3_send_ListBuckets s3 w0 = (Ok response, w1) ->
  lambdaBundleBuckets_of (Buckets response) = [] ->
  handler w
  = (Ok tt, w1,
     [ EScan scan_input; EListBuckets s3;
       EConsoleLog "S3 bucket policy updated successfully!" ]).
Proof. intros Hscan Hlist Hnone. now rewrite handler_run, Hscan, Hlist, Hnone. Qed.

(** X14. A run never calls get-policy or put-policy on a bucket whose name
    does not begin with the managed prefix, and every such call goes
    through the client built for that bucket. *)
Theorem handler_touches_managed_buckets_only (w : W) :
  Forall on_managed_bucket (snd (handler w)).
Proof.
  rewrite handler_run.
  destruct (dynamodb_send_Scan scan_input w) as [[out | e] w0];
    [|cbn; repeat constructor].
  destruct (s3_send_ListBuckets s3 w0) as [[response | e] w1];
    [|cbn; repeat constructor].
  destruct (loop_shape (accountIds_of_Items (Items out))
              (lambdaBundleBuckets_of (Buckets response)) w1)
    as (r & w2 & written & tail & rest & Hrun & Hb & _ & Htail & _).
  rewrite Hrun. cbn [snd].
  assert (forall b, In b (map fst written ++ rest)%list ->
                    startsWith b BUCKET_PREFIX = true) as Hin.
  { intros b H. rewrite <- Hb in H. apply (discovered_startsWith _ _ H). }
  repeat (apply Forall_app; split).
  - repeat constructor.
  - apply turn_events_on_managed. intros b H. apply Hin, in_or_app. now left.
  - destruct Htail as [-> | (b & rest' & -> & ->)]; [constructor|].
    repeat constructor. apply Hin, in_or_app. right. now left.
  - destruct r; repeat constructor.
Qed.

(** X15. A second turn on a bucket writes the text it reads: when the
    policy fetched is the text of a document that a merge for this bucket
    and these accounts returned, and that text parses back to the document,
    the turn writes the same text again. *)
Theorem handler_bucket_rewrites_same_text
    accountIds bucket (w : W) w1 previous merged :
  updateBucketPolicy bucket previous accountIds = Ok merged ->
  s3_send_GetBucketPolicy (client_of bucket) bucket w
  = (Ok {| Policy := Some (JSON_stringify merged) |}, w1) ->
  JSON_stringify merged <> "" ->
  JSON_parse (JSON_stringify merged) = Some merged ->
  handler_bucket accountIds bucket w
  = (let (written, w2) :=
       s3_send_PutBucketPolicy (client_of bucket) bucket (JSON_stringify merged) w1 in
     (written, w2, turn_events (bucket, JSON_stringify merged))).
Proof.
  intros U Hget Hne Hparse.
  rewrite handler_bucket_run. cbv zeta. rewrite getCurrentBucketPolicy_run.
  unfold client_of in Hget. rewrite Hget. cbn [Policy].
  assert (or_else (Some (JSON_stringify merged)) "{}" = JSON_stringify merged) as ->.
  { cbn. destruct (JSON_stringify merged); [now elim Hne | reflexivity]. }
  unfold parse. rewrite Hparse. cbn [Res.bind].
  rewrite (updateBucketPolicy_Ok_fixed _ _ _ U). reflexivity.
Qed.

End MoreRuns.

(** ** More runs against the mocks *)

Lemma malformed_policy_is_fatal_sample :
  let services := mock_services (Ok {| Items := Some sample_registry |}) [sample_bucket] in
  let client := client_of sample_bucket in
  let store := [(sample_bucket, "Version: 2012-10-17")] in
  s3_send_GetBucketPolicy client sample_bucket store
  = (Ok {| Policy := Some "Version: 2012-10-17" |}, store) /\
  JSON_parse (or_else (Some "Version: 2012-10-17") "{}") = None /\
  exists message,
    getCurrentBucketPolicy client sample_bucket store
    = (Throw (SyntaxError message), store, [EGetBucketPolicy client sample_bucket]) /\
    handler_bucket sample_accounts sample_bucket store
    = (Throw (SyntaxError message), store, [EGetBucketPolicy client sample_bucket]).
Proof.
  intros services client store. split; [reflexivity|]. split; [reflexivity|].
  destruct (@malformed_policy_is_fatal _ services client sample_bucket sample_accounts
              store {| Policy := Some "Version: 2012-10-17" |} store eq_refl eq_refl)
    as (message & Hfetch & Hturn).
  exists message. split; [exact Hfetch | exact (Hturn eq_refl)].
Defined.

Lemma handler_turn_by_turn_sample :
  let names := [sample_bucket; "unrelated"; bucket_us; bucket_ap] in
  let services :=
    mock_services_denying (Ok {| Items := Some sample_registry |}) names [] [bucket_us] in
  let out := {| Items := Some sample_registry |} in
  let response :=
    {| Buckets := Some (map (fun n => {| Bucket_Name := Some n |}) names) |} in
  let text := JSON_stringify (merged_default sample_bucket sample_accounts) in
  let text_us := JSON_stringify (merged_default bucket_us sample_accounts) in
  let trd := turn_events (sample_bucket, text) in
  let trb := turn_events (bucket_us, text_us) in
  dynamodb_send_Scan scan_input [] = (Ok out, []) /\
  s3_send_ListBuckets s3 [] = (Ok response, []) /\
  lambdaBundleBuckets_of (Buckets response)
  = ([sample_bucket] ++ bucket_us :: [bucket_ap])%list /\
  for_of [sample_bucket] (handler_bucket (accountIds_of_Items (Items out))) []
  = (Ok tt, [(sample_bucket, text)], trd) /\
  s3_send_PutBucketPolicy (client_of bucket_us) bucket_us text_us [(sample_bucket, text)]
  = (Throw AccessDenied_error, [(sample_bucket, text)]) /\
  handler_bucket (accountIds_of_Items (Items out)) bucket_us [(sample_bucket, text)]
  = (Throw AccessDenied_error, [(sample_bucket, text)], trb) /\
  handler []
  = (Throw AccessDenied_error, [(sample_bucket, text)],
     [ EScan scan_input; EListBuckets s3;
       EGetBucketPolicy (client_of sample_bucket) sample_bucket;
       EPutBucketPolicy (client_of sample_bucket) sample_bucket text;
       EGetBucketPolicy (client_of bucket_us) bucket_us;
       EPutBucketPolicy (client_of bucket_us) bucket_us text_us;
       EConsoleError "Error processing DynamoDB event:" AccessDenied_error ]).
Proof.
  intros names services out response text text_us trd trb.
  destruct (@handler_turn_by_turn _ services [] out [] response [] eq_refl eq_refl)
    as (_ & _ & _ & Hturn & Hstop & _).
  assert (Hus : handler_bucket (accountIds_of_Items (Items out)) bucket_us
                  [(sample_bucket, text)]
                = (Throw AccessDenied_error, [(sample_bucket, text)], trb)).
  { apply (Hturn (accountIds_of_Items (Items out)) bucket_us [(sample_bucket, text)]
             default_policy [(sample_bucket, text)]
             [EGetBucketPolicy (client_of bucket_us) bucket_us]
             (merged_default bucket_us sample_accounts)
             (Throw AccessDenied_error) [(sample_bucket, text)]);
      reflexivity. }
  split; [reflexivity|]. split; [reflexivity|]. split; [reflexivity|].
  split; [reflexivity|]. split; [reflexivity|]. split; [exact Hus|].
  apply (Hstop [sample_bucket] bucket_us [bucket_ap] [(sample_bucket, text)] trd
           AccessDenied_error [(sample_bucket, text)] trb eq_refl eq_refl Hus).
Defined.

Lemma handler_success_writes_every_bucket_sample :
  let services :=
    mock_services (Ok {| Items := Some sample_registry |})
      ["unrelated"; sample_bucket; "some-prefix-lambdabundles-us-east-1"] in
  let run := handler [] in
  run = (Ok tt, snd (fst run), snd run) /\
  exists out w0 response w1 written,
    dynamodb_send_Scan scan_input [] = (Ok out, w0) /\
    s3_send_ListBuckets s3 w0 = (Ok response, w1) /\
    map fst written = lambdaBundleBuckets_of (Buckets response) /\
    snd run = ([EScan scan_input; EListBuckets s3]
               ++ flat_map turn_events written
               ++ [EConsoleLog "S3 bucket policy updated successfully!"])%list.
Proof.
  intros services run. split; [reflexivity|].
  apply (@handler_success_writes_every_bucket _ services [] (snd (fst run)) (snd run)).
  reflexivity.
Defined.

Lemma handler_listing_failure_sample :
  let services :=
    mock_services_with (Ok {| Items := Some sample_registry |})
      (Throw AccessDenied_error) mock_parse in
  dynamodb_send_Scan scan_input [] = (Ok {| Items := Some sample_registry |}, []) /\
  s3_send_ListBuckets s3 [] = (Throw AccessDenied_error, []) /\
  handler []
  = (Throw AccessDenied_error, [],
     [ EScan scan_input; EListBuckets s3;
       EConsoleError "Error processing DynamoDB event:" AccessDenied_error ]).
Proof.
  intros services. split; [reflexivity|]. split; [reflexivity|].
  apply (@handler_listing_failure _ services [] {| Items := Some sample_registry |} []
           AccessDenied_error [] eq_refl eq_refl).
Defined.

Lemma handler_no_managed_bucket_sample :
  let services :=
    mock_services (Ok {| Items := Some sample_registry |})
      ["unrelated"; "some-prefix-lambdabundles"] in
  let response :=
    {| Buckets := Some [ {| Bucket_Name := Some "unrelated" |};
                         {| Bucket_Name := Some "some-prefix-lambdabundles" |} ] |} in
  dynamodb_send_Scan scan_input [] = (Ok {| Items := Some sample_registry |}, []) /\
  s3_send_ListBuckets s3 [] = (Ok response, []) /\
  lambdaBundleBuckets_of (Buckets response) = [] /\
  handler []
  = (Ok tt, [],
     [ EScan scan_input; EListBuckets s3;
       EConsoleLog "S3 bucket policy updated successfully!" ]).
Proof.
  intros services response.
  split; [reflexivity|]. split; [reflexivity|]. split; [reflexivity|].
  apply (@handler_no_managed_bucket _ services [] {| Items := Some sample_registry |} []
           response [] eq_refl eq_refl eq_refl).
Defined.

Lemma handler_bucket_rewrites_same_text_sample :
  let services :=
    mock_services_with (Ok {| Items := Some sample_registry |})
      (Ok {| Buckets := Some [ {| Bucket_Name := Some sample_bucket |} ] |})
      (mock_parse_of sample_merged) in
  let text := JSON_stringify sample_merged in
  let store := [(sample_bucket, text)] in
  updateBucketPolicy sample_bucket sample_policy sample_accounts = Ok sample_merged /\
  s3_send_GetBucketPolicy (client_of sample_bucket) sample_bucket store
  = (Ok {| Policy := Some text |}, store) /\
  text <> "" /\
  JSON_parse text = Some sample_merged /\
  handler_bucket sample_accounts sample_bucket store
  = (Ok tt, (sample_bucket, text) :: store, turn_events (sample_bucket, text)).
Proof.
  intros services text store.
  assert (text <> "") as Hne by (vm_compute; discriminate).
  split; [reflexivity|]. split; [reflexivity|]. split; [exact Hne|].
  split; [reflexivity|].
  apply (@handler_bucket_rewrites_same_text _ services sample_accounts sample_bucket
           store store sample_policy sample_merged eq_refl eq_refl Hne eq_refl).
Defined.

(** ** The merger and the resolver together *)

(** X16. Nothing of a stale managed statement survives a merge: two
    documents with the same fields and the same foreign statements in the
    same order merge to the same document, whatever managed statements
    they carry and wherever these stand. *)
Theorem merge_ignores_stale_managed_statements
    bucket accountIds fields stmts stmts' :
  forallb (fun s => negb (is_null s)) stmts = true ->
  forallb (fun s => negb (is_null s)) stmts' = true ->
  filter is_foreign stmts = filter is_foreign stmts' ->
  updateBucketPolicy bucket
    (JObject (set_field "Statement" (JArray stmts) fields)) accountIds
  = updateBucketPolicy bucket
      (JObject (set_field "Statement" (JArray stmts') fields)) accountIds.
Proof.
  intros F F' Hsame.
  rewrite (updateBucketPolicy_document bucket accountIds
             (set_field "Statement" (JArray stmts) fields)
             (assoc_set_field_same _ _ _) F).
  rewrite (updateBucketPolicy_document bucket accountIds
             (set_field "Statement" (JArray stmts') fields)
             (assoc_set_field_same _ _ _) F').
  now rewrite !set_field_twice, Hsame.
Qed.

Lemma merge_ignores_stale_managed_statements_sample :
  let fields := [("Version", JString "2012-10-17"); ("Statement", JArray [])] in
  let stmts := [ updatedStatement sample_bucket ["333333333333"]; foreign_stmt;
                 updatedStatement "elsewhere" []; unnamed_stmt ] in
  let stmts' := [ foreign_stmt; unnamed_stmt ] in
  forallb (fun s => negb (is_null s)) stmts = true /\
  forallb (fun s => negb (is_null s)) stmts' = true /\
  filter is_foreign stmts = filter is_foreign stmts' /\
  updateBucketPolicy sample_bucket
    (JObject (set_field "Statement" (JArray stmts) fields)) sample_accounts
  = updateBucketPolicy sample_bucket
      (JObject (set_field "Statement" (JArray stmts') fields)) sample_accounts.
Proof.
  intros fields stmts stmts'.
  split; [reflexivity|]. split; [reflexivity|]. split; [reflexivity|].
  apply (merge_ignores_stale_managed_statements sample_bucket sample_accounts
           fields stmts stmts'); reflexivity.
Defined.

Lemma account_root_arn_injective a b :
  account_root_arn a = account_root_arn b -> a = b.
Proof.
  intros H. apply (f_equal account_of_arn) in H.
  now rewrite !account_of_arn_root in H.
Qed.

Lemma NoDup_map_injective {A B} (f : A -> B) l :
  (forall x y, f x = f y -> x = y) -> NoDup l -> NoDup (map f l).
Proof.
  intros Hf. induction 1 as [| x l Hx Hl IH]; cbn; constructor; [|exact IH].
  intros Hin. apply in_map_iff in Hin as (y & Hy & Hin).
  apply Hf in Hy. now subst.
Qed.

(** X17. The managed statement built from the resolved accounts names each
    account once: its [Principal.AWS] holds one account-root reference for
    each identifier of the registry, without a duplicate, however many
    records share an account. *)
Theorem resolved_principals_are_distinct bucket items :
  exists principals,
    field "Principal" (updatedStatement bucket (accountIds_of_Items items))
    = Some (JObject [("AWS", JArray (map JString principals))]) /\
    NoDup principals /\
    forall arn,
      In arn principals <->
      exists record account,
        In record (nullish items []) /\
        In account (Customer.Accounts record) /\
        arn = "arn:aws:iam::" ++ Account.ID account ++ ":root".
Proof.
  exists (map account_root_arn (accountIds_of_Items items)). split; [|split].
  - cbn. now rewrite map_map.
  - apply NoDup_map_injective; [exact account_root_arn_injective|].
    apply fold_Set_add_NoDup. constructor.
  - intros arn. rewrite in_map_iff. unfold accountIds_of_Items, Array_from_Set.
    split.
    + intros (id & <- & Hin).
      apply fold_Set_add_In in Hin as [[] | Hin].
      apply in_flat_map in Hin as (record & Hr & Hid).
      apply in_map_iff in Hid as (account & <- & Ha). eauto.
    + intros (record & account & Hr & Ha & ->).
      exists (Account.ID account). split; [reflexivity|].
      apply fold_Set_add_In. right. apply in_flat_map.
      exists record. split; [assumption|]. apply in_map_iff. eauto.
Qed.
